(** * N-MNIST loader ([evis/datasets/nmnist.py]): binary event decoder,
      per-file conversion and construction checks.

    The development follows the Python source:
    - [Numpy]: the fragment of numpy the decoder uses (uint32 arrays,
      strided slices, element-wise operators with broadcasting);
    - [decode_events]: lines 70-79 of [decode_binary_to_npz];
    - [Section Loader]: the class [NMNIST] over a small file-system
      model with exceptions ([__init__], [download], [_check_exist],
      [decode_binary_to_npz], [decode], [__getitem__], [__len__]). *)

From Stdlib Require Import ZArith Strings.Byte Strings.Ascii.
From stdpp Require Import gmap strings list fin_maps.

Local Open Scope Z_scope.

(** ** Python exceptions and results *)

Inductive exn : Type :=
  | AssertionError          (* [assert ..., TypeError]: the argument is the class TypeError *)
  | RuntimeError (msg : string)
  | ValueError              (* numpy: operands could not be broadcast together *)
  | KeyError (key : string)
  | IndexError
  | FileNotFoundError
  | IsADirectoryError
  | NotADirectoryError
  | FileExistsError
  | OSError.

Inductive result (A : Type) : Type :=
  | Ok (a : A)
  | Raise (e : exn).
Arguments Ok {A} a.
Arguments Raise {A} e.

Definition rbind {A B} (r : result A) (k : A → result B) : result B :=
  match r with
  | Ok a => k a
  | Raise e => Raise e
  end.

(** ** The numpy fragment *)

Module Numpy.

(** A one-dimensional array of dtype uint32: the values are kept in
    [0, 2^32) by [wrap]. *)
Abbreviation ndarray := (list Z).

Definition wrap (v : Z) : Z := v mod 2 ^ 32.

(** [np.fromfile(f, dtype=np.uint8)] followed by [np.uint32(...)]. *)
Definition byte_val (b : byte) : Z := Z.of_N (Byte.to_N b).
Definition uint32_of_uint8 (raw : list byte) : ndarray := byte_val <$> raw.

(** [a[start::step]], scanning the array: [skip] elements are dropped
    before the next one is taken. *)
Fixpoint strided (step skip : nat) (a : ndarray) : ndarray :=
  match a with
  | [] => []
  | v :: a' =>
      match skip with
      | O => v :: strided step (Nat.pred step) a'
      | S k => strided step k a'
      end
  end.

Definition slice_from (start step : nat) (a : ndarray) : ndarray :=
  strided step start a.

(** Array-with-scalar operators. *)
Definition and_scalar (a : ndarray) (k : Z) : ndarray := (λ v, Z.land v k) <$> a.
Definition rshift_scalar (a : ndarray) (k : Z) : ndarray := (λ v, Z.shiftr v k) <$> a.
Definition lshift_scalar (a : ndarray) (k : Z) : ndarray := (λ v, wrap (Z.shiftl v k)) <$> a.

(** Array-with-array operator: numpy broadcasts one-dimensional shapes
    [(m,)] and [(n,)] when [m = n], [m = 1] or [n = 1], and raises
    ValueError otherwise. *)
Definition broadcast (f : Z → Z → Z) (a b : ndarray) : result ndarray :=
  if decide (length a = length b) then Ok (zip_with f a b)
  else match a, b with
       | [u], _ => Ok (f u <$> b)
       | _, [v] => Ok ((λ u, f u v) <$> a)
       | _, _ => Raise ValueError
       end.

Definition or_array : ndarray → ndarray → result ndarray := broadcast Z.lor.

End Numpy.

(** ** The decoder proper *)

Record event_data : Type := EventData {
  ev_x : list Z;
  ev_y : list Z;
  ev_p : list Z;
  ev_ts : list Z
}.

(** Lines 70-79 of [decode_binary_to_npz]: from the bytes read to the
    dictionary [event_data]. *)
Definition decode_events (raw : list byte) : result event_data :=
  let data := Numpy.uint32_of_uint8 raw in
  let x := Numpy.slice_from 0 5 data in
  let y := Numpy.slice_from 1 5 data in
  let remaining_data := Numpy.slice_from 2 5 data in
  let p := Numpy.rshift_scalar (Numpy.and_scalar remaining_data 128) 7 in
  rbind (Numpy.or_array
           (Numpy.lshift_scalar (Numpy.and_scalar remaining_data 127) 16)
           (Numpy.lshift_scalar (Numpy.slice_from 3 5 data) 8)) (λ hi,
  rbind (Numpy.or_array hi (Numpy.slice_from 4 5 data)) (λ ts,
  Ok (EventData x y p ts))).

(** The timestamp of three bytes, as line 77 computes it on uint32. *)
Definition ts_of (b2 b3 b4 : byte) : Z :=
  Z.lor (Z.lor (Numpy.wrap (Z.shiftl (Z.land (Numpy.byte_val b2) 127) 16))
               (Numpy.wrap (Z.shiftl (Numpy.byte_val b3) 8)))
        (Numpy.byte_val b4).

(** The encoder the decoder is compared with (the source has none): one
    event back to its five bytes, byte0 = x, byte1 = y,
    byte2 = (p << 7) | (ts >> 16), byte3 = (ts >> 8) & 0xFF,
    byte4 = ts & 0xFF. *)
Definition reference_encode_event (x y p ts : Z) : list Z :=
  [ x; y; Z.lor (Z.shiftl p 7) (Z.shiftr ts 16);
    Z.land (Z.shiftr ts 8) 255; Z.land ts 255 ].

Fixpoint reference_encode_arrays (xs ys ps tss : list Z) : list Z :=
  match xs, ys, ps, tss with
  | x :: xs', y :: ys', p :: ps', ts :: tss' =>
      reference_encode_event x y p ts ++ reference_encode_arrays xs' ys' ps' tss'
  | _, _, _, _ => []
  end.

(** A number becomes a byte only when it is in [0, 256). *)
Definition byte_of_Z (v : Z) : option byte :=
  if decide (0 ≤ v) then Byte.of_N (Z.to_N v) else None.

Definition reference_encode (ev : event_data) : option (list byte) :=
  mapM byte_of_Z (reference_encode_arrays (ev_x ev) (ev_y ev) (ev_p ev) (ev_ts ev)).

(** The i-th 5-byte group of a stream, as numbers. *)
Definition group (raw : list byte) (i : nat) : list Z :=
  Numpy.byte_val <$> take 5 (drop (5 * i)%nat raw).

(** ** Strings and paths *)

Abbreviation path := (list string).

Definition upper_ascii (c : ascii) : ascii :=
  let n := N_of_ascii c in
  if ((97 <=? n) && (n <=? 122))%N then ascii_of_N (n - 32) else c.

Definition lower_ascii (c : ascii) : ascii :=
  let n := N_of_ascii c in
  if ((65 <=? n) && (n <=? 90))%N then ascii_of_N (n + 32) else c.

Fixpoint lower (s : string) : string :=
  match s with
  | EmptyString => EmptyString
  | String c s' => String (lower_ascii c) (lower s')
  end.

(** [str.capitalize()] on ASCII text. *)
Definition capitalize (s : string) : string :=
  match s with
  | EmptyString => EmptyString
  | String c s' => String (upper_ascii c) (lower s')
  end.

(** [s.split(".")[0]]: the text before the first dot. *)
Fixpoint before_dot (s : string) : string :=
  match s with
  | EmptyString => EmptyString
  | String c s' => if Ascii.eqb c "." then EmptyString else String c (before_dot s')
  end.

Definition ends_with (suffix s : string) : bool :=
  let n := String.length s in
  let m := String.length suffix in
  (m <=? n)%nat && String.eqb (String.substring (n - m) m s) suffix.

(** [p.parent]. *)
Definition parent (p : path) : path := removelast p.

(** The non-empty prefixes of a path: the directory itself and its ancestors. *)
Definition ancestors_and_self (p : path) : list path :=
  (λ n, take (S n) p) <$> seq 0 (length p).

(** ** The file system and the effects of the loader *)

Inductive effect : Type :=
  | EIsDir (p : path)
  | EDownload (url : string) (download_root : path) (filename md5 : string)
  | EOpen (p : path)
  | ESavez (p : path)
  | EUnlink (p : path)
  | EMkdir (p : path)
  | EIterdir (p : path)
  | EPrint (msg : string).

Record world : Type := World {
  dirs : gset path;
  files : gmap path (list byte);
  trace : list effect
}.

Definition io (A : Type) : Type := world → result A * world.

Definition ret {A} (a : A) : io A := λ w, (Ok a, w).
Definition raise {A} (e : exn) : io A := λ w, (Raise e, w).
Definition lift {A} (r : result A) : io A := λ w, (r, w).
Definition bind {A B} (m : io A) (k : A → io B) : io B :=
  λ w, match m w with
       | (Ok a, w') => k a w'
       | (Raise e, w') => (Raise e, w')
       end.

Notation "'let*' x := m 'in' k" := (bind m (λ x, k))
  (at level 10, x binder, k at level 200, only parsing).

Definition log (e : effect) : io unit :=
  λ w, (Ok tt, World (dirs w) (files w) (trace w ++ [e])).

(** A [for] loop: the body runs on each element in turn, and the first
    exception ends the loop. *)
Fixpoint for_each {A} (l : list A) (body : A → io unit) : io unit :=
  match l with
  | [] => ret tt
  | a :: l' => let* _ := body a in for_each l' body
  end.

(** How a write ends: it completes, it raises leaving nothing, or it
    raises leaving part of the file behind. *)
Inductive write_end : Type :=
  | Completes
  | FailsClean
  | FailsTorn (partial : list byte).

(** Python values that can be passed as an index or returned by a stub. *)
Inductive pyval : Type :=
  | PyNone
  | PyBool (b : bool)
  | PyInt (n : Z)
  | PyStr (s : string)
  | PySlice (start stop : option Z).

Section Loader.

(** What lies outside the repository: the bytes numpy writes for an
    archive, how a write to the disk ends, and torchvision's
    [download_and_extract_archive]. *)
Variable npz_bytes : event_data → list byte.
Variable write_env : path → list byte → write_end.
Variable download_and_extract_archive : string → path → string → string → io unit.

(** *** pathlib and numpy I/O *)

Definition is_dir (p : path) : io bool :=
  let* _ := log (EIsDir p) in λ w, (Ok (bool_decide (p ∈ dirs w)), w).

(** [open(p, "rb")] and [np.fromfile]; the handle is closed when the
    [with] block is left. *)
Definition read_bytes (p : path) : io (list byte) :=
  let* _ := log (EOpen p) in λ w,
    if decide (p ∈ dirs w) then (Raise IsADirectoryError, w)
    else match files w !! p with
         | Some raw => (Ok raw, w)
         | None => (Raise FileNotFoundError, w)
         end.

(** [np.savez] appends [.npz] to a name that does not end with it. *)
Definition savez_target (p : path) : path :=
  match last p with
  | Some name => if ends_with ".npz" name then p else parent p ++ [name +:+ ".npz"]
  | None => p
  end.

Definition savez (p : path) (ev : event_data) : io unit :=
  let target := savez_target p in
  let* _ := log (ESavez target) in λ w,
    if decide (target ∈ dirs w) then (Raise IsADirectoryError, w)
    else if decide (parent target = [] ∨ parent target ∈ dirs w) then
      match write_env target (npz_bytes ev) with
      | Completes =>
          (Ok tt, World (dirs w) (<[target := npz_bytes ev]> (files w)) (trace w))
      | FailsClean => (Raise OSError, w)
      | FailsTorn partial =>
          (Raise OSError, World (dirs w) (<[target := partial]> (files w)) (trace w))
      end
    else (Raise FileNotFoundError, w).

Definition unlink (p : path) : io unit :=
  let* _ := log (EUnlink p) in λ w,
    match files w !! p with
    | Some _ => (Ok tt, World (dirs w) (delete p (files w)) (trace w))
    | None =>
        if decide (p ∈ dirs w) then (Raise IsADirectoryError, w)
        else (Raise FileNotFoundError, w)
    end.

(** [p.mkdir(parents=True, exist_ok=True)]. *)
Definition mkdir (p : path) : io unit :=
  let* _ := log (EMkdir p) in λ w,
    if decide (is_Some (files w !! p)) then (Raise FileExistsError, w)
    else if decide (Exists (λ q, is_Some (files w !! q)) (ancestors_and_self p))
    then (Raise NotADirectoryError, w)
    else (Ok tt, World (dirs w ∪ list_to_set (ancestors_and_self p)) (files w) (trace w)).

(** [p.iterdir()]: the entries are listed when the loop starts; their
    order is the one of the underlying set. *)
Definition iterdir (p : path) : io (list path) :=
  let* _ := log (EIterdir p) in λ w,
    if decide (is_Some (files w !! p)) then (Raise NotADirectoryError, w)
    else if decide (p = [] ∨ p ∈ dirs w) then
      (Ok (elements (filter (λ q, q ≠ [] ∧ parent q = p) (dirs w ∪ dom (files w)))), w)
    else (Raise FileNotFoundError, w).

Definition print (msg : string) : io unit := log (EPrint msg).

(** *** class NMNIST *)

Record NMNIST : Type := Build_NMNIST {
  root : path;
  _split : string;
  _base_folder : path
}.

Definition base_foler : string := "NMNIST".

Definition urls : gmap string string :=
  {[ "train" := "https://data.mendeley.com/public-files/datasets/468j46mzdv/files/39c25547-014b-4137-a934-9d29fa53c7a0/file_downloaded";
     "test" := "https://data.mendeley.com/public-files/datasets/468j46mzdv/files/05a4d654-7e03-4c15-bdfa-9bb2bcbea494/file_downloaded" ]}.

Definition md5s : gmap string string :=
  {[ "train" := "20959b8e626244a1b502305a9e6e2031";
     "test" := "69ca8762b2fe404d9b9bad1103e97832" ]}.

Definition getitem (d : gmap string string) (k : string) : io string :=
  match d !! k with
  | Some v => ret v
  | None => raise (KeyError k)
  end.

Definition _check_exist (self : NMNIST) : io bool :=
  is_dir (_base_folder self ++ [capitalize (_split self)]).

Definition download (self : NMNIST) : io unit :=
  let* exists_ := _check_exist self in
  if negb exists_ then
    let* url := getitem urls (_split self) in
    let filename := _split self +:+ ".zip" in
    let* md5 := getitem md5s (_split self) in
    let* _ := log (EDownload url (_base_folder self) filename md5) in
    download_and_extract_archive url (_base_folder self) filename md5
  else ret tt.

Definition not_found_message : string :=
  "Dataset not found, you can use `download=True` to download it.".

(** The [assert] statement is the one of the interpreter in its default
    mode: a false condition raises AssertionError. *)
Definition __init__ (root : path) (split : string) (download_flag : bool) : io NMNIST :=
  if negb (bool_decide (split ∈ ["train"; "test"])) then raise AssertionError
  else
    let self := Build_NMNIST root split (root ++ [base_foler]) in
    let* _ := (if download_flag then download self else ret tt) in
    let* exists_ := _check_exist self in
    if negb exists_ then raise (RuntimeError not_found_message)
    else ret self.

Definition decode_binary_to_npz (self : NMNIST) (file_decode_path npz_file_path : path)
  : io unit :=
  let* raw := read_bytes file_decode_path in
  let* event_data := lift (decode_events raw) in
  savez npz_file_path event_data.

Definition last_part (p : path) : io string :=
  match last p with
  | Some name => ret name
  | None => raise IndexError
  end.

(** Lines 99-104: the body of the inner loop of [decode]. *)
Definition decode_file (self : NMNIST) (target_class_dir bin_file : path) : io unit :=
  let* name := last_part bin_file in
  let target_file := target_class_dir ++ [before_dot name +:+ ".npz"] in
  let* _ := decode_binary_to_npz self bin_file target_file in
  unlink bin_file.

Definition decode (self : NMNIST) : io unit :=
  let source_dir := _base_folder self ++ [capitalize (_split self)] in
  let target_dir := _base_folder self ++ [capitalize (_split self) +:+ "_npz"] in
  let* class_dirs := iterdir source_dir in
  let* _ := for_each class_dirs (λ class_dir_name,
    let* name := last_part class_dir_name in
    let target_class_dir := target_dir ++ [name] in
    let* _ := mkdir target_class_dir in
    let* bin_files := iterdir class_dir_name in
    for_each bin_files (decode_file self target_class_dir)) in
  print "Decoded all the files. ".

Definition __getitem__ (self : NMNIST) (index : pyval) : io pyval := ret PyNone.

Definition __len__ (self : NMNIST) : io pyval := ret PyNone.

End Loader.

(** ** What a run of [decode] may change

    The relation between the world before and the world after that the
    steps of [decode] keep: directories are only added, and only on the
    way to a class directory of the target; files are only removed two
    levels below the source directory; files are only created as
    [target_dir/<class>/<stem>.npz]. *)
Definition decode_frame (source_dir target_dir : path) (w w' : world) : Prop :=
  dirs w ⊆ dirs w' ∧
  (∀ d, d ∈ dirs w' → d ∈ dirs w ∨ ∃ c, d `prefix_of` target_dir ++ [c]) ∧
  (∀ p, is_Some (files w !! p) →
        is_Some (files w' !! p) ∨ parent (parent p) = source_dir) ∧
  (∀ p, is_Some (files w' !! p) →
        is_Some (files w !! p) ∨ ∃ c s, p = target_dir ++ [c; s +:+ ".npz"]).

(** ** A small data set, used in the examples

    One class directory ["0"] of the training split with two event files:
    [7.bin] holds two events, [9.bin] one event and a stray byte.  The
    archive of the examples keeps the x values only, and every write
    completes. *)
Definition example_self : NMNIST :=
  Build_NMNIST ["data"] "train" ["data"; "NMNIST"].

Definition example_world : world :=
  World {[ ["data"]; ["data"; "NMNIST"]; ["data"; "NMNIST"; "Train"];
           ["data"; "NMNIST"; "Train"; "0"] ]}
        {[ ["data"; "NMNIST"; "Train"; "0"; "7.bin"]
             := [x0a; x14; x81; x02; x03; xff; x00; x7f; xff; xfe];
           ["data"; "NMNIST"; "Train"; "0"; "9.bin"]
             := [x01; x02; x03; x04; x05; x06] ]}
        [].

Definition example_npz_bytes (ev : event_data) : list byte :=
  omap byte_of_Z (ev_x ev).

Definition example_write_env (p : path) (content : list byte) : write_end := Completes.

(** * Properties *)

(** ** Proof steps used more than once *)

(** Facts about one byte are settled by running through the 256 bytes. *)
Ltac by_byte b := destruct b; vm_compute; reflexivity.

(** A decidable fact about an explicit world is settled by evaluation. *)
Ltac by_run :=
  match goal with |- ?P => apply (bool_decide_unpack P) end; vm_compute; exact I.

(** No unlink among the effects of an explicit list. *)
Ltac no_unlink :=
  let H := fresh in
  intros H;
  repeat (apply elem_of_cons in H as [H|H]; [discriminate H|]);
  by apply elem_of_nil in H.

(** ** Bytes and masks *)

Lemma byte_val_range (b : byte) : 0 ≤ Numpy.byte_val b < 256.
Proof.
  unfold Numpy.byte_val. pose proof (Byte.to_N_bounded b). lia.
Qed.

Lemma byte_of_Z_byte_val (b : byte) : byte_of_Z (Numpy.byte_val b) = Some b.
Proof.
  unfold byte_of_Z, Numpy.byte_val.
  destruct (decide (0 ≤ Z.of_N (Byte.to_N b))) as [_|Hneg]; [|lia].
  rewrite N2Z.id. apply Byte.of_to_N.
Qed.

Lemma byte_val_inj (b c : byte) : Numpy.byte_val b = Numpy.byte_val c → b = c.
Proof.
  intros Heq. apply (inj Some).
  rewrite <- (byte_of_Z_byte_val b), <- (byte_of_Z_byte_val c). by rewrite Heq.
Qed.

Lemma polarity_bit (b : byte) :
  Z.shiftr (Z.land (Numpy.byte_val b) 128) 7 = Z.b2z (Z.testbit (Numpy.byte_val b) 7).
Proof. by_byte b. Qed.

Lemma polarity_range (b : byte) :
  Z.shiftr (Z.land (Numpy.byte_val b) 128) 7 = 0 ∨
  Z.shiftr (Z.land (Numpy.byte_val b) 128) 7 = 1.
Proof. rewrite polarity_bit. destruct (Z.testbit _ _); [by right | by left]. Qed.

Lemma high_part_nowrap (b : byte) :
  Numpy.wrap (Z.shiftl (Z.land (Numpy.byte_val b) 127) 16)
  = Z.shiftl (Z.land (Numpy.byte_val b) 127) 16.
Proof. by_byte b. Qed.

Lemma mid_part_nowrap (b : byte) :
  Numpy.wrap (Z.shiftl (Numpy.byte_val b) 8) = Z.shiftl (Numpy.byte_val b) 8.
Proof. by_byte b. Qed.

Lemma high_part_range (b : byte) :
  0 ≤ Z.shiftl (Z.land (Numpy.byte_val b) 127) 16 ≤ 127 * 65536.
Proof. destruct b; vm_compute; split; discriminate. Qed.

Lemma mid_part_range (b : byte) : 0 ≤ Z.shiftl (Numpy.byte_val b) 8 ≤ 255 * 256.
Proof. destruct b; vm_compute; split; discriminate. Qed.

Lemma byte_shiftr_8 (b : byte) : Z.shiftr (Numpy.byte_val b) 8 = 0.
Proof. by_byte b. Qed.

Lemma byte_shiftr_16 (b : byte) : Z.shiftr (Numpy.byte_val b) 16 = 0.
Proof. by_byte b. Qed.

Lemma byte_land_255 (b : byte) : Z.land (Numpy.byte_val b) 255 = Numpy.byte_val b.
Proof. by_byte b. Qed.

Lemma high_part_land_255 (b : byte) :
  Z.land (Z.shiftl (Z.land (Numpy.byte_val b) 127) 8) 255 = 0.
Proof. by_byte b. Qed.

Lemma high_part_shifted_land_255 (b : byte) :
  Z.land (Z.shiftl (Z.land (Numpy.byte_val b) 127) 16) 255 = 0.
Proof. by_byte b. Qed.

Lemma mid_part_land_255 (b : byte) : Z.land (Z.shiftl (Numpy.byte_val b) 8) 255 = 0.
Proof. by_byte b. Qed.

Lemma byte2_rebuilt (b : byte) :
  Z.lor (Z.shiftl (Z.shiftr (Z.land (Numpy.byte_val b) 128) 7) 7)
        (Z.land (Numpy.byte_val b) 127) = Numpy.byte_val b.
Proof. by_byte b. Qed.

Lemma ts_of_formula (b2 b3 b4 : byte) :
  ts_of b2 b3 b4
  = Z.lor (Z.lor (Z.shiftl (Z.land (Numpy.byte_val b2) 127) 16)
                 (Z.shiftl (Numpy.byte_val b3) 8))
          (Numpy.byte_val b4).
Proof. unfold ts_of. by rewrite high_part_nowrap, mid_part_nowrap. Qed.

Lemma ts_of_shiftr_16 (b2 b3 b4 : byte) :
  Z.shiftr (ts_of b2 b3 b4) 16 = Z.land (Numpy.byte_val b2) 127.
Proof.
  rewrite ts_of_formula, !Z.shiftr_lor.
  rewrite Z.shiftr_shiftl_l by lia.
  rewrite (Z.shiftr_shiftl_r _ 8 16) by lia.
  change (16 - 16) with 0. change (16 - 8) with 8.
  rewrite Z.shiftl_0_r, byte_shiftr_8, byte_shiftr_16.
  by rewrite !Z.lor_0_r.
Qed.

Lemma ts_of_byte3 (b2 b3 b4 : byte) :
  Z.land (Z.shiftr (ts_of b2 b3 b4) 8) 255 = Numpy.byte_val b3.
Proof.
  rewrite ts_of_formula, !Z.shiftr_lor.
  rewrite !Z.shiftr_shiftl_l by lia.
  change (16 - 8) with 8. change (8 - 8) with 0.
  rewrite Z.shiftl_0_r, byte_shiftr_8, Z.lor_0_r.
  rewrite Z.land_lor_distr_l, high_part_land_255, byte_land_255.
  apply Z.lor_0_l.
Qed.

Lemma ts_of_byte4 (b2 b3 b4 : byte) :
  Z.land (ts_of b2 b3 b4) 255 = Numpy.byte_val b4.
Proof.
  rewrite ts_of_formula, !Z.land_lor_distr_l.
  rewrite high_part_shifted_land_255, mid_part_land_255, byte_land_255.
  by rewrite !Z.lor_0_l.
Qed.

Lemma lor_le_add (a b : Z) : 0 ≤ a → 0 ≤ b → 0 ≤ Z.lor a b ≤ a + b.
Proof.
  intros Ha Hb. split; [by apply Z.lor_nonneg|].
  pose proof (Z.add_lor_land a b) as Hsum.
  assert (0 ≤ Z.land a b) by (apply Z.land_nonneg; by left).
  lia.
Qed.

Lemma ts_parts_range (hi mid lo : Z) :
  0 ≤ hi ≤ 127 * 65536 → 0 ≤ mid ≤ 255 * 256 → 0 ≤ lo < 256 →
  0 ≤ Z.lor (Z.lor hi mid) lo < 2 ^ 23.
Proof.
  intros Hhi Hmid Hlo.
  pose proof (lor_le_add hi mid) as H1.
  pose proof (lor_le_add (Z.lor hi mid) lo) as H2.
  change (2 ^ 23) with 8388608. lia.
Qed.

(** ** Strided slices *)

Lemma strided_lookup (step : nat) (a : Numpy.ndarray) :
  ∀ (skip i : nat), (skip < step)%nat →
    Numpy.strided step skip a !! i = a !! (i * step + skip)%nat.
Proof.
  induction a as [|v a IH]; intros skip i Hskip; [done|].
  destruct skip as [|k]; simpl.
  - destruct i as [|j]; [done|]. simpl.
    rewrite IH by lia.
    replace (j * step + Nat.pred step)%nat with (Nat.pred (step + j * step + 0)) by lia.
    destruct (step + j * step + 0)%nat eqn:E; [lia|done].
  - rewrite IH by lia.
    by replace (i * step + S k)%nat with (S (i * step + k)) by lia.
Qed.

Lemma strided_length (a : Numpy.ndarray) (n t k : nat) :
  length a = (5 * n + t)%nat → (t < 5)%nat → (k < 5)%nat →
  length (Numpy.strided 5 k a) = if decide (k < t)%nat then S n else n.
Proof.
  intros Hlen Ht Hk.
  set (m := length (Numpy.strided 5 k a)).
  assert (Hge : (length a ≤ m * 5 + k)%nat).
  { apply lookup_ge_None. rewrite <- strided_lookup by lia.
    by apply lookup_ge_None. }
  assert (Hlt : ∀ j, (j < m)%nat → (j * 5 + k < length a)%nat).
  { intros j Hj. apply lookup_lt_is_Some. rewrite <- strided_lookup by lia.
    by apply lookup_lt_is_Some. }
  destruct m as [|m'].
  - case_decide; lia.
  - specialize (Hlt m' ltac:(lia)). case_decide; lia.
Qed.

Lemma slice_length (raw : list byte) (n t k : nat) :
  length raw = (5 * n + t)%nat → (t < 5)%nat → (k < 5)%nat →
  length (Numpy.slice_from k 5 (Numpy.uint32_of_uint8 raw))
  = if decide (k < t)%nat then S n else n.
Proof.
  intros Hlen Ht Hk. unfold Numpy.slice_from, Numpy.uint32_of_uint8.
  apply strided_length; [by rewrite length_fmap|done..].
Qed.

Lemma slice_lookup (raw : list byte) (k i : nat) :
  (k < 5)%nat →
  Numpy.slice_from k 5 (Numpy.uint32_of_uint8 raw) !! i
  = Numpy.byte_val <$> raw !! (5 * i + k)%nat.
Proof.
  intros Hk. unfold Numpy.slice_from, Numpy.uint32_of_uint8.
  rewrite strided_lookup by done. rewrite list_lookup_fmap.
  by replace (i * 5 + k)%nat with (5 * i + k)%nat by lia.
Qed.

(** The i-th group of a stream that has one. *)
Lemma group_lookup (raw : list byte) (i : nat) :
  (5 * i + 5 ≤ length raw)%nat →
  ∃ b0 b1 b2 b3 b4 : byte,
    raw !! (5 * i + 0)%nat = Some b0 ∧ raw !! (5 * i + 1)%nat = Some b1 ∧
    raw !! (5 * i + 2)%nat = Some b2 ∧ raw !! (5 * i + 3)%nat = Some b3 ∧
    raw !! (5 * i + 4)%nat = Some b4 ∧
    group raw i = Numpy.byte_val <$> [b0; b1; b2; b3; b4].
Proof.
  intros Hlen. unfold group.
  assert (Hk : ∀ k, (k < 5)%nat → raw !! (5 * i + k)%nat = drop (5 * i) raw !! k).
  { intros k _. by rewrite lookup_drop. }
  rewrite !Hk by lia.
  assert (Hd : (5 ≤ length (drop (5 * i) raw))%nat) by (rewrite length_drop; lia).
  destruct (drop (5 * i) raw) as [|b0 [|b1 [|b2 [|b3 [|b4 l]]]]]; simpl in Hd; try lia.
  by exists b0, b1, b2, b3, b4.
Qed.

(** ** The decoder on streams whose last three slices are aligned *)

Lemma broadcast_same_length (f : Z → Z → Z) (a b : Numpy.ndarray) :
  length a = length b → Numpy.broadcast f a b = Ok (zip_with f a b).
Proof. intros Hlen. unfold Numpy.broadcast. by rewrite decide_True. Qed.

(** For a stream of 5n, 5n+1 or 5n+2 bytes the slices from offsets 2, 3
    and 4 all have n elements, no broadcasting takes place and the
    decoder returns; [ts] is given index by index. *)
Lemma decode_events_ok (raw : list byte) (n t : nat) :
  length raw = (5 * n + t)%nat → (t ≤ 2)%nat →
  ∃ ts : list Z,
    decode_events raw
    = Ok (EventData
            (Numpy.slice_from 0 5 (Numpy.uint32_of_uint8 raw))
            (Numpy.slice_from 1 5 (Numpy.uint32_of_uint8 raw))
            (Numpy.rshift_scalar
               (Numpy.and_scalar (Numpy.slice_from 2 5 (Numpy.uint32_of_uint8 raw)) 128) 7)
            ts)
    ∧ length ts = n
    ∧ ∀ (i : nat) (b2 b3 b4 : byte),
        raw !! (5 * i + 2)%nat = Some b2 → raw !! (5 * i + 3)%nat = Some b3 →
        raw !! (5 * i + 4)%nat = Some b4 → ts !! i = Some (ts_of b2 b3 b4).
Proof.
  intros Hlen Ht.
  assert (Hl : ∀ k, (2 ≤ k < 5)%nat →
            length (Numpy.slice_from k 5 (Numpy.uint32_of_uint8 raw)) = n).
  { intros k Hk. rewrite (slice_length raw n t k) by (done || lia).
    rewrite decide_False; [done|lia]. }
  unfold decode_events, Numpy.or_array, Numpy.lshift_scalar, Numpy.and_scalar.
  rewrite broadcast_same_length by (rewrite !length_fmap, !Hl; (done || lia)).
  cbn [rbind].
  rewrite broadcast_same_length
    by (rewrite length_zip_with, !length_fmap, !Hl; (done || lia)).
  cbn [rbind]. eexists. split; [reflexivity|]. split.
  - rewrite !length_zip_with, !length_fmap, !Hl; lia.
  - intros i b2 b3 b4 H2 H3 H4.
    rewrite !lookup_zip_with, !list_lookup_fmap, !slice_lookup by lia.
    by rewrite H2, H3, H4.
Qed.

Lemma group_length_inv (raw : list byte) (i : nat) (g : list Z) :
  group raw i = g → length g = 5%nat → (5 * i + 5 ≤ length raw)%nat.
Proof.
  intros <-. unfold group. rewrite length_fmap, length_take, length_drop. lia.
Qed.

(** Every field of the i-th event of an aligned stream, from the bytes
    of the i-th group. *)
Lemma decode_events_group (raw : list byte) (n t : nat) (ev : event_data)
    (i : nat) (b0 b1 b2 b3 b4 : byte) :
  length raw = (5 * n + t)%nat → (t ≤ 2)%nat →
  decode_events raw = Ok ev →
  group raw i = Numpy.byte_val <$> [b0; b1; b2; b3; b4] →
  ev_x ev !! i = Some (Numpy.byte_val b0) ∧
  ev_y ev !! i = Some (Numpy.byte_val b1) ∧
  ev_p ev !! i = Some (Z.shiftr (Z.land (Numpy.byte_val b2) 128) 7) ∧
  ev_ts ev !! i = Some (ts_of b2 b3 b4).
Proof.
  intros Hlen Ht Hdec Hg.
  pose proof (group_length_inv raw i _ Hg eq_refl) as Hi.
  destruct (group_lookup raw i Hi) as (c0 & c1 & c2 & c3 & c4 & H0 & H1 & H2 & H3 & H4 & Hg').
  rewrite Hg in Hg'. simpl in Hg'.
  injection Hg' as E0 E1 E2 E3 E4.
  apply byte_val_inj in E0, E1, E2, E3, E4. subst c0 c1 c2 c3 c4.
  destruct (decode_events_ok raw n t Hlen Ht) as (ts & Hok & _ & Hts).
  rewrite Hok in Hdec. injection Hdec as <-. simpl.
  unfold Numpy.rshift_scalar, Numpy.and_scalar.
  rewrite !list_lookup_fmap, !slice_lookup by lia.
  rewrite H0, H1, H2. simpl. repeat split. by apply Hts.
Qed.

Lemma decode_events_single (b0 b1 b2 b3 b4 : byte) :
  decode_events [b0; b1; b2; b3; b4]
  = Ok (EventData [Numpy.byte_val b0] [Numpy.byte_val b1]
          [Z.shiftr (Z.land (Numpy.byte_val b2) 128) 7] [ts_of b2 b3 b4]).
Proof. reflexivity. Qed.

Lemma decode_events_nil : decode_events [] = Ok (EventData [] [] [] []).
Proof. reflexivity. Qed.

(** One more group in front of an aligned stream puts one more event in
    front of each of the four arrays. *)
Lemma decode_events_cons5 (b0 b1 b2 b3 b4 : byte) (r : list byte) (n : nat) :
  length r = (5 * n)%nat →
  ∃ ev : event_data,
    decode_events r = Ok ev ∧
    decode_events (b0 :: b1 :: b2 :: b3 :: b4 :: r)
    = Ok (EventData (Numpy.byte_val b0 :: ev_x ev) (Numpy.byte_val b1 :: ev_y ev)
            (Z.shiftr (Z.land (Numpy.byte_val b2) 128) 7 :: ev_p ev)
            (ts_of b2 b3 b4 :: ev_ts ev)).
Proof.
  intros Hlen.
  assert (Hl : ∀ k, (2 ≤ k < 5)%nat →
            length (Numpy.slice_from k 5 (Numpy.uint32_of_uint8 r)) = n).
  { intros k Hk. rewrite (slice_length r n 0 k) by lia.
    rewrite decide_False; [done|lia]. }
  assert (Hl' : ∀ k, (2 ≤ k < 5)%nat →
            length (Numpy.slice_from k 5
                      (Numpy.uint32_of_uint8 (b0 :: b1 :: b2 :: b3 :: b4 :: r))) = S n).
  { intros k Hk. rewrite (slice_length _ (S n) 0 k) by (simpl; lia).
    rewrite decide_False; [done|lia]. }
  unfold decode_events, Numpy.or_array, Numpy.lshift_scalar, Numpy.and_scalar.
  rewrite !broadcast_same_length
    by (rewrite !length_fmap, ?Hl, ?Hl'; (done || lia)).
  cbn [rbind].
  rewrite !broadcast_same_length
    by (rewrite length_zip_with, !length_fmap, ?Hl, ?Hl'; (done || lia)).
  cbn [rbind]. eexists. split; reflexivity.
Qed.

(** ** The decoder: layout, counts, round trip, bounds *)

(** C1: on a stream whose length is a multiple of 5 the decoder returns,
    and each 5-byte group [b0; b1; b2; b3; b4] gives one event with
    x = b0, y = b1, p = bit 7 of b2 and
    ts = (b2 & 0x7F) << 16 | b3 << 8 | b4.  The group
    [10; 20; 0x81; 0x02; 0x03] decodes to x = 10, y = 20, p = 1,
    ts = 66051, and a group whose third byte is 0x7F decodes to p = 0 with
    ts >> 16 = 0x7F. *)
Theorem decode_group_layout (raw : list byte) (n : nat) :
  length raw = (5 * n)%nat →
  (∃ ev : event_data,
     decode_events raw = Ok ev ∧
     ∀ (i : nat) (b0 b1 b2 b3 b4 : Z),
       group raw i = [b0; b1; b2; b3; b4] →
       ev_x ev !! i = Some b0 ∧
       ev_y ev !! i = Some b1 ∧
       ev_p ev !! i = Some (Z.b2z (Z.testbit b2 7)) ∧
       ev_ts ev !! i
       = Some (Z.lor (Z.lor (Z.shiftl (Z.land b2 127) 16) (Z.shiftl b3 8)) b4))
  ∧ decode_events [x0a; x14; x81; x02; x03] = Ok (EventData [10] [20] [1] [66051])
  ∧ ∀ b0 b1 b3 b4 : byte,
      ∃ ts : Z,
        decode_events [b0; b1; x7f; b3; b4]
        = Ok (EventData [Numpy.byte_val b0] [Numpy.byte_val b1] [0] [ts])
        ∧ Z.shiftr ts 16 = 127.
Proof.
  intros Hlen. split; [|split].
  - destruct (decode_events_ok raw n 0) as (ts & Hok & _ & _); [lia..|].
    eexists. split; [exact Hok|].
    intros i v0 v1 v2 v3 v4 Hg.
    pose proof (group_length_inv raw i _ Hg eq_refl) as Hi.
    destruct (group_lookup raw i Hi) as (b0 & b1 & b2 & b3 & b4 & _ & _ & _ & _ & _ & Hb).
    pose proof (decode_events_group raw n 0 _ i b0 b1 b2 b3 b4
                  ltac:(lia) ltac:(lia) Hok Hb) as (Hx & Hy & Hp & Hts).
    rewrite Hg in Hb. injection Hb as -> -> -> -> ->.
    rewrite Hx, Hy, Hp, Hts. by rewrite polarity_bit, ts_of_formula.
  - reflexivity.
  - intros b0 b1 b3 b4. exists (ts_of x7f b3 b4). split; [reflexivity|].
    by rewrite ts_of_shiftr_16.
Qed.

Lemma decode_group_layout_witness :
  ∃ ev : event_data,
    decode_events [x0a; x14; x81; x02; x03; xff; x00; x7f; xff; xfe] = Ok ev ∧
    ev_ts ev !! 1%nat = Some 8388606.
Proof.
  destruct (decode_group_layout [x0a; x14; x81; x02; x03; xff; x00; x7f; xff; xfe] 2)
    as [(ev & Hok & Hev) _]; [reflexivity|].
  exists ev. split; [exact Hok|].
  destruct (Hev 1%nat 255 0 127 255 254) as (_ & _ & _ & Hts); [reflexivity|].
  exact Hts.
Defined.

(** C2: on a stream of 5n bytes the decoder returns four sequences of
    exactly n values each, and the i-th value of each sequence is computed
    from the bytes of the i-th group. *)
Theorem decode_counts_and_alignment (raw : list byte) (n : nat) :
  length raw = (5 * n)%nat →
  ∃ ev : event_data,
    decode_events raw = Ok ev ∧
    length (ev_x ev) = n ∧ length (ev_y ev) = n ∧
    length (ev_p ev) = n ∧ length (ev_ts ev) = n ∧
    ∀ i : nat, (i < n)%nat →
      ∃ b0 b1 b2 b3 b4 : Z,
        group raw i = [b0; b1; b2; b3; b4] ∧
        ev_x ev !! i = Some b0 ∧
        ev_y ev !! i = Some b1 ∧
        ev_p ev !! i = Some (Z.shiftr (Z.land b2 128) 7) ∧
        ev_ts ev !! i
        = Some (Z.lor (Z.lor (Z.shiftl (Z.land b2 127) 16) (Z.shiftl b3 8)) b4).
Proof.
  intros Hlen.
  destruct (decode_events_ok raw n 0) as (ts & Hok & Hts & _); [lia..|].
  eexists. split; [exact Hok|]. cbn [ev_x ev_y ev_p ev_ts].
  unfold Numpy.rshift_scalar, Numpy.and_scalar. rewrite !length_fmap.
  rewrite !(slice_length raw n 0) by lia.
  rewrite !decide_False by lia. repeat split; try done.
  intros i Hi.
  destruct (group_lookup raw i) as (b0 & b1 & b2 & b3 & b4 & _ & _ & _ & _ & _ & Hb); [lia|].
  pose proof (decode_events_group raw n 0 _ i b0 b1 b2 b3 b4
                ltac:(lia) ltac:(lia) Hok Hb) as (Hx & Hy & Hp & Hts').
  cbn [ev_x ev_y ev_p ev_ts] in Hx, Hy, Hp, Hts'.
  unfold Numpy.rshift_scalar, Numpy.and_scalar in Hp.
  eexists _, _, _, _, _. split; [exact Hb|].
  rewrite Hx, Hy, Hp, Hts'. by rewrite ts_of_formula.
Qed.

Lemma decode_counts_and_alignment_witness :
  ∃ ev : event_data,
    decode_events [x0a; x14; x81; x02; x03; xff; x00; x7f; xff; xfe] = Ok ev ∧
    length (ev_x ev) = 2%nat ∧ length (ev_ts ev) = 2%nat.
Proof.
  destruct (decode_counts_and_alignment
              [x0a; x14; x81; x02; x03; xff; x00; x7f; xff; xfe] 2)
    as (ev & Hok & Hx & _ & _ & Hts & _); [reflexivity|].
  exists ev. by repeat split.
Defined.

Lemma reference_encode_cons (b0 b1 b2 b3 b4 : byte) (ev : event_data) (r : list byte) :
  reference_encode ev = Some r →
  reference_encode
    (EventData (Numpy.byte_val b0 :: ev_x ev) (Numpy.byte_val b1 :: ev_y ev)
       (Z.shiftr (Z.land (Numpy.byte_val b2) 128) 7 :: ev_p ev)
       (ts_of b2 b3 b4 :: ev_ts ev))
  = Some (b0 :: b1 :: b2 :: b3 :: b4 :: r).
Proof.
  unfold reference_encode. intros Hr.
  cbn [ev_x ev_y ev_p ev_ts reference_encode_arrays reference_encode_event app mapM].
  rewrite ts_of_shiftr_16, byte2_rebuilt, ts_of_byte3, ts_of_byte4.
  rewrite !byte_of_Z_byte_val, Hr. reflexivity.
Qed.

Lemma decode_encode (n : nat) :
  ∀ raw : list byte, length raw = (5 * n)%nat →
    ∃ ev : event_data, decode_events raw = Ok ev ∧ reference_encode ev = Some raw.
Proof.
  induction n as [|n IH]; intros raw Hlen.
  - destruct raw; [|done]. by exists (EventData [] [] [] []).
  - destruct raw as [|b0 [|b1 [|b2 [|b3 [|b4 r]]]]]; simpl in Hlen; try lia.
    destruct (decode_events_cons5 b0 b1 b2 b3 b4 r n) as (ev & Hr & Hfull); [lia|].
    destruct (IH r) as (ev' & Hr' & Henc); [lia|].
    rewrite Hr in Hr'. injection Hr' as <-.
    eexists. split; [exact Hfull|]. by apply reference_encode_cons.
Qed.

(** C3: on a stream whose length is a multiple of 5, encoding the four
    decoded fields with the reference encoder gives back the stream byte
    for byte; hence two such streams with the same decoding are equal. *)
Theorem decode_encode_roundtrip (raw : list byte) (n : nat) :
  length raw = (5 * n)%nat →
  (∃ ev : event_data, decode_events raw = Ok ev ∧ reference_encode ev = Some raw)
  ∧ ∀ (raw' : list byte) (n' : nat),
      length raw' = (5 * n')%nat → decode_events raw' = decode_events raw → raw' = raw.
Proof.
  intros Hlen. split; [by apply (decode_encode n)|].
  intros raw' n' Hlen' Heq.
  destruct (decode_encode n raw Hlen) as (ev & Hd & He).
  destruct (decode_encode n' raw' Hlen') as (ev' & Hd' & He').
  rewrite Hd, Hd' in Heq. injection Heq as ->.
  rewrite He in He'. by injection He'.
Qed.

Lemma decode_encode_roundtrip_witness :
  ∃ ev : event_data,
    decode_events [x0a; x14; x81; x02; x03; xff; x00; x7f; xff; xfe] = Ok ev ∧
    reference_encode ev = Some [x0a; x14; x81; x02; x03; xff; x00; x7f; xff; xfe].
Proof.
  exact (proj1 (decode_encode_roundtrip
                  [x0a; x14; x81; x02; x03; xff; x00; x7f; xff; xfe] 2 eq_refl)).
Defined.

Lemma byte_val_surj (v : Z) : 0 ≤ v < 256 → ∃ b : byte, Numpy.byte_val b = v.
Proof.
  intros Hv. destruct (Byte.of_N (Z.to_N v)) as [b|] eqn:E.
  - exists b. unfold Numpy.byte_val. pose proof (@Byte.to_of_N _ _ E) as Hb. rewrite Hb. lia.
  - apply Byte.of_N_None_iff in E. lia.
Qed.

(** C7: bytes 0 and 1 of every group reach x and y as they are: the
    decoder returns on every aligned stream whatever the byte values, the
    i-th x and y are the bytes at offsets 5i and 5i+1, and every pair of
    values in [0, 256) (inside the 34x34 sensor or not) comes out
    unchanged whatever the other three bytes are. *)
Theorem xy_passed_through (raw : list byte) (n : nat) :
  length raw = (5 * n)%nat →
  (∃ ev : event_data,
     decode_events raw = Ok ev ∧
     ∀ (i : nat) (b0 b1 : byte),
       raw !! (5 * i)%nat = Some b0 → raw !! (5 * i + 1)%nat = Some b1 →
       ev_x ev !! i = Some (Numpy.byte_val b0) ∧
       ev_y ev !! i = Some (Numpy.byte_val b1))
  ∧ ∀ v w : Z, 0 ≤ v < 256 → 0 ≤ w < 256 →
      ∃ b0 b1 : byte,
        Numpy.byte_val b0 = v ∧ Numpy.byte_val b1 = w ∧
        ∀ b2 b3 b4 : byte,
          ∃ p ts : Z,
            decode_events [b0; b1; b2; b3; b4] = Ok (EventData [v] [w] [p] [ts]).
Proof.
  intros Hlen. split.
  - destruct (decode_events_ok raw n 0) as (ts & Hok & _ & _); [lia..|].
    eexists. split; [exact Hok|]. intros i b0 b1 H0 H1.
    cbn [ev_x ev_y]. rewrite !slice_lookup by lia.
    rewrite Nat.add_0_r, H0, H1. done.
  - intros v w Hv Hw.
    destruct (byte_val_surj v Hv) as [b0 <-].
    destruct (byte_val_surj w Hw) as [b1 <-].
    exists b0, b1. repeat split. intros b2 b3 b4.
    eexists _, _. apply decode_events_single.
Qed.

Lemma xy_passed_through_witness :
  ∃ ev : event_data,
    decode_events [xff; xc8; x81; x02; x03] = Ok ev ∧
    ev_x ev !! 0%nat = Some 255 ∧ ev_y ev !! 0%nat = Some 200.
Proof.
  destruct (xy_passed_through [xff; xc8; x81; x02; x03] 1 eq_refl)
    as [(ev & Hok & Hxy) _].
  exists ev. split; [exact Hok|].
  exact (Hxy 0%nat xff xc8 eq_refl eq_refl).
Defined.

(** ** Bounds on every decoded value *)

Lemma strided_Forall (P : Z → Prop) (step : nat) (a : Numpy.ndarray) :
  Forall P a → ∀ skip : nat, Forall P (Numpy.strided step skip a).
Proof.
  induction 1 as [|v a Hv _ IH]; intros skip; simpl; [constructor|].
  destruct skip; [constructor|]; auto.
Qed.

Lemma broadcast_Forall (PA PB PC : Z → Prop) (f : Z → Z → Z) (a b c : Numpy.ndarray) :
  (∀ u v, PA u → PB v → PC (f u v)) →
  Forall PA a → Forall PB b → Numpy.broadcast f a b = Ok c → Forall PC c.
Proof.
  intros Hf Ha Hb. unfold Numpy.broadcast.
  assert (Hzip : Forall PC (zip_with f a b)).
  { clear -Hf Ha Hb. revert b Hb.
    induction Ha as [|u a Hu _ IH]; intros b Hb; [constructor|].
    destruct Hb as [|v b Hv Hb]; simpl; [constructor|].
    constructor; auto. }
  assert (Hleft : ∀ u, PA u → Forall PC (f u <$> b)).
  { intros u Hu. apply Forall_fmap. eapply Forall_impl; [exact Hb|].
    intros v Hv. by apply Hf. }
  assert (Hright : ∀ v, PB v → Forall PC ((λ u, f u v) <$> a)).
  { intros v Hv. apply Forall_fmap. eapply Forall_impl; [exact Ha|].
    intros u Hu. by apply Hf. }
  case_decide as Hlen; [by intros [= <-]|].
  destruct a as [|u [|u' a]]; destruct b as [|v [|v' b]];
    simpl; try (intros [=]; fail); intros [= <-];
    first [ by constructor
          | apply Hleft; by inversion Ha
          | apply Hright; by inversion Hb ].
Qed.

Lemma slice_bytes (raw : list byte) (k : nat) :
  Forall (λ v, ∃ b : byte, v = Numpy.byte_val b)
         (Numpy.slice_from k 5 (Numpy.uint32_of_uint8 raw)).
Proof.
  apply strided_Forall, Forall_fmap, Forall_forall.
  intros b _. by exists b.
Qed.

(** C8: whatever the stream, every value the decoder returns is
    bounded: x and y are below 256, p is 0 or 1, ts is below 2^23. *)
Theorem decoded_values_bounded (raw : list byte) (ev : event_data) :
  decode_events raw = Ok ev →
  Forall (λ v, 0 ≤ v < 256) (ev_x ev) ∧
  Forall (λ v, 0 ≤ v < 256) (ev_y ev) ∧
  Forall (λ v, v = 0 ∨ v = 1) (ev_p ev) ∧
  Forall (λ v, 0 ≤ v < 2 ^ 23) (ev_ts ev).
Proof.
  unfold decode_events, Numpy.or_array. intros Hdec.
  destruct (Numpy.broadcast Z.lor _ _) as [hi|] eqn:Ehi; [|done]. cbn [rbind] in Hdec.
  destruct (Numpy.broadcast Z.lor hi _) as [ts|] eqn:Ets; [|done]. cbn [rbind] in Hdec.
  injection Hdec as <-. cbn [ev_x ev_y ev_p ev_ts].
  assert (Hbyte : ∀ k, Forall (λ v, 0 ≤ v < 256)
                          (Numpy.slice_from k 5 (Numpy.uint32_of_uint8 raw))).
  { intros k. eapply Forall_impl; [apply slice_bytes|].
    intros v [b ->]. apply byte_val_range. }
  repeat split; try apply Hbyte.
  - unfold Numpy.rshift_scalar, Numpy.and_scalar. rewrite <- list_fmap_compose.
    apply Forall_fmap. eapply Forall_impl; [apply (slice_bytes raw 2)|].
    intros v [b ->]. apply polarity_range.
  - eapply (broadcast_Forall (λ v, 0 ≤ v ≤ 127 * 65536 + 255 * 256) (λ v, 0 ≤ v < 256));
      [| |apply Hbyte|exact Ets].
    + intros u v Hu Hv. pose proof (lor_le_add u v). change (2 ^ 23) with 8388608. lia.
    + eapply (broadcast_Forall (λ v, 0 ≤ v ≤ 127 * 65536) (λ v, 0 ≤ v ≤ 255 * 256));
        [| | |exact Ehi].
      * intros u v Hu Hv. pose proof (lor_le_add u v). lia.
      * unfold Numpy.lshift_scalar, Numpy.and_scalar. rewrite <- list_fmap_compose.
        apply Forall_fmap. eapply Forall_impl; [apply (slice_bytes raw 2)|].
        intros v [b ->]. simpl. rewrite high_part_nowrap. apply high_part_range.
      * unfold Numpy.lshift_scalar.
        apply Forall_fmap. eapply Forall_impl; [apply (slice_bytes raw 3)|].
        intros v [b ->]. simpl. rewrite mid_part_nowrap. apply mid_part_range.
Qed.

Lemma decoded_values_bounded_witness :
  Forall (λ v, 0 ≤ v < 256) [255; 1] ∧
  Forall (λ v, 0 ≤ v < 256) [255; 2] ∧
  Forall (λ v, v = 0 ∨ v = 1) [1; 0] ∧
  Forall (λ v, 0 ≤ v < 2 ^ 23) [8388607; 262143].
Proof.
  exact (decoded_values_bounded
           [xff; xff; xff; xff; xff; x01; x02; x03]
           (EventData [255; 1] [255; 2] [1; 0] [8388607; 262143]) eq_refl).
Defined.

(** ** Streams that are not a whole number of groups *)

(** C9: a stream of 5n+1 bytes is decoded without an exception into an
    x of n+1 values next to y, p and ts of n values; a stream of 5n+2
    bytes into x and y of n+1 values next to p and ts of n values. *)
Theorem misaligned_lengths (raw : list byte) (n : nat) :
  (length raw = (5 * n + 1)%nat →
   ∃ ev : event_data,
     decode_events raw = Ok ev ∧
     length (ev_x ev) = S n ∧ length (ev_y ev) = n ∧
     length (ev_p ev) = n ∧ length (ev_ts ev) = n)
  ∧
  (length raw = (5 * n + 2)%nat →
   ∃ ev : event_data,
     decode_events raw = Ok ev ∧
     length (ev_x ev) = S n ∧ length (ev_y ev) = S n ∧
     length (ev_p ev) = n ∧ length (ev_ts ev) = n).
Proof.
  split; intros Hlen.
  - destruct (decode_events_ok raw n 1) as (ts & Hok & Hts & _); [lia..|].
    eexists. split; [exact Hok|]. cbn [ev_x ev_y ev_p ev_ts].
    unfold Numpy.rshift_scalar, Numpy.and_scalar. rewrite !length_fmap.
    rewrite !(slice_length raw n 1) by lia.
    repeat split; try done; case_decide; lia.
  - destruct (decode_events_ok raw n 2) as (ts & Hok & Hts & _); [lia..|].
    eexists. split; [exact Hok|]. cbn [ev_x ev_y ev_p ev_ts].
    unfold Numpy.rshift_scalar, Numpy.and_scalar. rewrite !length_fmap.
    rewrite !(slice_length raw n 2) by lia.
    repeat split; try done; case_decide; lia.
Qed.

Lemma misaligned_lengths_witness :
  (∃ ev : event_data,
     decode_events [x0a; x14; x81; x02; x03; x01] = Ok ev ∧
     length (ev_x ev) = 2%nat ∧ length (ev_y ev) = 1%nat ∧
     length (ev_p ev) = 1%nat ∧ length (ev_ts ev) = 1%nat)
  ∧
  (∃ ev : event_data,
     decode_events [x0a; x14; x81; x02; x03; x01; x02] = Ok ev ∧
     length (ev_x ev) = 2%nat ∧ length (ev_y ev) = 2%nat ∧
     length (ev_p ev) = 1%nat ∧ length (ev_ts ev) = 1%nat).
Proof.
  split.
  - exact (proj1 (misaligned_lengths [x0a; x14; x81; x02; x03; x01] 1) eq_refl).
  - exact (proj2 (misaligned_lengths [x0a; x14; x81; x02; x03; x01; x02] 1) eq_refl).
Defined.

(** ** Construction and the stubs *)

Section LoaderFacts.

Variable download_and_extract_archive : string → path → string → string → io unit.

(** C5: with a split other than "train" and "test" the constructor
    raises at the assertion, whatever the root and the download flag,
    and the world it leaves is the one it was given: no directory or
    file was looked at or touched and nothing was downloaded. *)
Theorem invalid_split_fails_first
    (root : path) (split : string) (download_flag : bool) (w : world) :
  split ≠ "train" → split ≠ "test" →
  __init__ download_and_extract_archive root split download_flag w
  = (Raise AssertionError, w).
Proof.
  intros Htrain Htest. unfold __init__.
  rewrite bool_decide_eq_false_2; [done|].
  rewrite !elem_of_cons, elem_of_nil. tauto.
Qed.

(** C6: with a valid split, download disabled and no directory of that
    split under [root/NMNIST], the constructor raises the RuntimeError
    that asks for [download=True]; the only access made is the
    directory test. *)
Theorem missing_dataset_not_found (root : path) (split : string) (w : world) :
  split = "train" ∨ split = "test" →
  root ++ ["NMNIST"; capitalize split] ∉ dirs w →
  __init__ download_and_extract_archive root split false w
  = (Raise (RuntimeError
              "Dataset not found, you can use `download=True` to download it."),
     World (dirs w) (files w)
           (trace w ++ [EIsDir (root ++ ["NMNIST"; capitalize split])])).
Proof.
  intros Hsplit Hmissing. unfold __init__.
  rewrite bool_decide_eq_true_2
    by (rewrite !elem_of_cons; destruct Hsplit; auto).
  cbn [negb]. unfold _check_exist, is_dir, bind, ret, log, raise.
  cbn [_base_folder _split dirs files trace base_foler].
  rewrite <- (assoc_L (++) root). cbn [app].
  by rewrite bool_decide_eq_false_2.
Qed.

(** C10: on every instance and every index [__getitem__] returns None,
    and [__len__] returns None: neither raises, neither touches the
    world, neither returns a sample or a count. *)
Theorem stubs_return_none (self : NMNIST) (index : pyval) (w : world) :
  __getitem__ self index w = (Ok PyNone, w) ∧ __len__ self w = (Ok PyNone, w).
Proof. split; reflexivity. Qed.

End LoaderFacts.

(** ** The per-file conversion step *)

Lemma substring_after (s t : string) (m : nat) :
  String.substring (String.length s) m (s +:+ t) = String.substring 0 m t.
Proof. induction s as [|c s IH]; [done|]. simpl. exact IH. Qed.

Lemma string_length_app (s t : string) :
  String.length (s +:+ t) = (String.length s + String.length t)%nat.
Proof. induction s as [|c s IH]; [done|]. simpl. by rewrite IH. Qed.

Lemma ends_with_npz (s : string) : ends_with ".npz" (s +:+ ".npz") = true.
Proof.
  unfold ends_with. rewrite string_length_app. cbn [String.length].
  replace (String.length s + 4 - 4)%nat with (String.length s) by lia.
  rewrite substring_after. apply andb_true_intro. split.
  - apply Nat.leb_le. lia.
  - reflexivity.
Qed.

Lemma savez_target_npz (dir : path) (s : string) :
  savez_target (dir ++ [s +:+ ".npz"]) = dir ++ [s +:+ ".npz"].
Proof. unfold savez_target. by rewrite last_snoc, ends_with_npz. Qed.

Section Conversion.

Variable npz_bytes : event_data → list byte.
Variable write_env : path → list byte → write_end.

(** What one call of [decode_binary_to_npz] can do to the files: it
    deletes nothing, it changes no file but its target, it never
    unlinks, and when it returns the source was decoded and the write
    of the archive completed. *)
Lemma decode_binary_to_npz_inv (self : NMNIST) (src dst : path)
    (w w' : world) (r : result unit) :
  decode_binary_to_npz npz_bytes write_env self src dst w = (r, w') →
  (∀ q, is_Some (files w !! q) → is_Some (files w' !! q)) ∧
  (∀ q, q ≠ savez_target dst → files w' !! q = files w !! q) ∧
  (∃ l, trace w' = trace w ++ l ∧ ∀ q, EUnlink q ∉ l) ∧
  (∀ u, r = Ok u →
     ∃ raw ev,
       files w !! src = Some raw ∧ decode_events raw = Ok ev ∧
       write_env (savez_target dst) (npz_bytes ev) = Completes ∧
       files w' !! savez_target dst = Some (npz_bytes ev)).
Proof.
  unfold decode_binary_to_npz, read_bytes, savez, lift, bind, log.
  cbn [dirs files trace]. intros Hrun.
  repeat case_match; simplify_eq; cbn [dirs files trace].
  all: split_and!; try done.
  all: try (eexists; split;
            [ by rewrite <- ?(assoc_L (++)) | intros q; no_unlink ]).
  all: try (intros q Hq; destruct (decide (savez_target dst = q)) as [<-|];
            [ by rewrite lookup_insert_eq | by rewrite lookup_insert_ne ]).
  all: try (intros q Hq; by rewrite lookup_insert_ne).
  intros u _. eexists _, _. split_and!; [done..|]. by rewrite lookup_insert_eq.
Qed.

(** C4: in the step that converts one file, the source is unlinked
    only after [decode_binary_to_npz] has returned, that is after the
    write of the archive completed.  For a source file that exists:
    (a) when the step raises, the source is still there and no unlink
    of it was made; (b) an exception of [decode_binary_to_npz] (reading,
    decoding or writing) is the outcome of the step, in the very state
    where it was raised; (c) when the source is gone after the step,
    the step returned, the source was decoded and the write of its
    archive completed. *)
Theorem source_deleted_only_after_write (self : NMNIST)
    (target_class_dir bin_file : path) (w w2 : world) (r : result unit) :
  decode_file npz_bytes write_env self target_class_dir bin_file w = (r, w2) →
  is_Some (files w !! bin_file) →
  ((∃ e, r = Raise e) →
     is_Some (files w2 !! bin_file) ∧
     ∃ l, trace w2 = trace w ++ l ∧ EUnlink bin_file ∉ l)
  ∧ (∀ name e w1,
       last bin_file = Some name →
       decode_binary_to_npz npz_bytes write_env self bin_file
         (target_class_dir ++ [before_dot name +:+ ".npz"]) w = (Raise e, w1) →
       r = Raise e ∧ w2 = w1)
  ∧ (files w2 !! bin_file = None →
       r = Ok tt ∧
       ∃ name raw ev,
         last bin_file = Some name ∧
         files w !! bin_file = Some raw ∧
         decode_events raw = Ok ev ∧
         write_env (target_class_dir ++ [before_dot name +:+ ".npz"]) (npz_bytes ev)
         = Completes ∧
         (target_class_dir ++ [before_dot name +:+ ".npz"] ≠ bin_file →
          files w2 !! (target_class_dir ++ [before_dot name +:+ ".npz"])
          = Some (npz_bytes ev))).
Proof.
  unfold decode_file, last_part. intros Hrun Hsrc.
  destruct (last bin_file) as [name|] eqn:Hlast.
  - unfold bind at 1 in Hrun. unfold ret in Hrun. unfold bind in Hrun.
    destruct (decode_binary_to_npz _ _ _ _ _ w) as [r1 w1] eqn:Hdec.
    pose proof (decode_binary_to_npz_inv _ _ _ _ _ _ Hdec)
      as (Hkeep & Hother & (l & Htrace & Hl) & Hok).
    rewrite savez_target_npz in Hother, Hok.
    destruct r1 as [[]|e1].
    + (* the archive was written: the unlink runs and succeeds *)
      unfold unlink, bind, log in Hrun. cbn [dirs files trace] in Hrun.
      destruct (Hkeep _ Hsrc) as [raw1 Hraw1]. rewrite Hraw1 in Hrun.
      simplify_eq. cbn [files trace]. split_and!.
      * by intros [e ?].
      * intros name' e w1' [= <-] Hd'. rewrite Hdec in Hd'. discriminate Hd'.
      * intros _. split; [done|].
        destruct (Hok () eq_refl) as (raw & ev & Hraw & Hev & Hwrite & Htarget).
        exists name, raw, ev. split_and!; try done.
        intros Hne. by rewrite lookup_delete_ne.
    + (* reading, decoding or writing raised: the unlink is not reached *)
      simplify_eq. split_and!.
      * intros _. split; [by apply Hkeep|]. exists l. split; [done|apply Hl].
      * intros name' e w1' [= <-] Hd'. rewrite Hdec in Hd'. by simplify_eq.
      * intros Hgone. destruct (Hkeep _ Hsrc) as [? Hstill]. congruence.
  - (* an empty path has no last part *)
    unfold raise, bind in Hrun. simplify_eq. split_and!.
    + intros _. split; [done|]. exists []. split; [by rewrite app_nil_r|].
      apply not_elem_of_nil.
    + by intros name e w1 [=].
    + intros Hgone. destruct Hsrc as [? Hsrc]. congruence.
Qed.

End Conversion.

(** The loop of [decode] ends with the first step that raises: the files
    that come after it are not visited. *)
Lemma for_each_raise {A} (body : A → io unit) (a : A) (l : list A)
    (w w' : world) (e : exn) :
  body a w = (Raise e, w') → for_each (a :: l) body w = (Raise e, w').
Proof. intros Hbody. cbn [for_each]. unfold bind. by rewrite Hbody. Qed.

(** A file of 13 bytes cannot be decoded (the slices have 3, 2 and 2
    elements): the step raises ValueError and the file is kept. *)
Lemma source_deleted_only_after_write_witness :
  let bin_file := ["data"; "NMNIST"; "Train"; "0"; "7.bin"] in
  let w := World {[ ["data"; "NMNIST"; "Train"; "0"] ]}
                 {[ bin_file := [x01; x02; x03; x04; x05; x06; x07; x08; x09; x0a;
                                 x0b; x0c; x0d] ]} [] in
  let run := decode_file (λ _, []) (λ _ _, Completes)
               (Build_NMNIST ["data"] "train" ["data"; "NMNIST"])
               ["data"; "NMNIST"; "Train_npz"; "0"] bin_file w in
  run.1 = Raise ValueError ∧ is_Some (files run.2 !! bin_file).
Proof.
  intros bin_file w run.
  assert (Hraise : run.1 = Raise ValueError) by (vm_compute; reflexivity).
  split; [exact Hraise|].
  destruct (source_deleted_only_after_write (λ _, []) (λ _ _, Completes)
              (Build_NMNIST ["data"] "train" ["data"; "NMNIST"])
              ["data"; "NMNIST"; "Train_npz"; "0"] bin_file w run.2 run.1)
    as [Hkept _].
  - apply surjective_pairing.
  - exists [x01; x02; x03; x04; x05; x06; x07; x08; x09; x0a; x0b; x0c; x0d].
    vm_compute; reflexivity.
  - apply Hkept. by exists ValueError.
Defined.

Lemma invalid_split_fails_first_witness :
  __init__ (λ _ _ _ _, ret tt) ["data"] "valid" true (World ∅ ∅ [])
  = (Raise AssertionError, World ∅ ∅ []).
Proof.
  apply invalid_split_fails_first; discriminate.
Defined.

Lemma missing_dataset_not_found_witness :
  __init__ (λ _ _ _ _, ret tt) ["data"] "test" false
    (World {[ ["data"]; ["data"; "NMNIST"]; ["data"; "NMNIST"; "Train"] ]} ∅ [])
  = (Raise (RuntimeError
              "Dataset not found, you can use `download=True` to download it."),
     World {[ ["data"]; ["data"; "NMNIST"]; ["data"; "NMNIST"; "Train"] ]} ∅
           [EIsDir ["data"; "NMNIST"; "Test"]]).
Proof.
  assert (Hmissing :
            ["data"] ++ ["NMNIST"; capitalize "test"]
            ∉ dirs (World {[ ["data"]; ["data"; "NMNIST"];
                             ["data"; "NMNIST"; "Train"] ]} ∅ [])).
  { cbn [dirs]. intros Hin.
    apply elem_of_union in Hin as [Hin|Hin];
      [apply elem_of_union in Hin as [Hin|Hin]|];
      apply elem_of_singleton in Hin; discriminate Hin. }
  exact (missing_dataset_not_found (λ _ _ _ _, ret tt) ["data"] "test"
           (World {[ ["data"]; ["data"; "NMNIST"]; ["data"; "NMNIST"; "Train"] ]} ∅ [])
           (or_intror eq_refl) Hmissing).
Defined.

(** * Further properties of the decoder *)

(** ** When the element-wise operators raise *)

Lemma broadcast_raise (f : Z → Z → Z) (a b : Numpy.ndarray) :
  length a ≠ length b → length a ≠ 1%nat → length b ≠ 1%nat →
  Numpy.broadcast f a b = Raise ValueError.
Proof.
  intros Hne Ha Hb. unfold Numpy.broadcast. rewrite decide_False by done.
  destruct a as [|u [|u' a]]; destruct b as [|v [|v' b]]; simpl in *; done.
Qed.

Lemma broadcast_ok_length (f : Z → Z → Z) (a b : Numpy.ndarray) :
  length a = length b ∨ length a = 1%nat ∨ length b = 1%nat →
  ∃ c : Numpy.ndarray,
    Numpy.broadcast f a b = Ok c ∧
    length c = if decide (length a = length b) then length a
               else if decide (length a = 1%nat) then length b else length a.
Proof.
  intros Hshape. unfold Numpy.broadcast.
  destruct (decide (length a = length b)) as [Heq|Hne].
  - eexists. split; [done|]. rewrite length_zip_with. lia.
  - destruct a as [|u [|u' a]]; destruct b as [|v [|v' b]]; simpl in *;
      try lia; eexists; (split; [done|]);
      repeat case_decide; simpl in *; rewrite ?length_fmap; lia.
Qed.

Lemma broadcast_only_ValueError (f : Z → Z → Z) (a b : Numpy.ndarray) (e : exn) :
  Numpy.broadcast f a b = Raise e → e = ValueError.
Proof.
  unfold Numpy.broadcast. case_decide; [done|].
  destruct a as [|u [|u' a]]; destruct b as [|v [|v' b]]; simpl; congruence.
Qed.

(** The three slices behind [ts], for a stream of 5n+t bytes. *)
Lemma ts_slices_length (raw : list byte) (n t : nat) :
  length raw = (5 * n + t)%nat → (t < 5)%nat →
  length (Numpy.lshift_scalar
            (Numpy.and_scalar (Numpy.slice_from 2 5 (Numpy.uint32_of_uint8 raw)) 127) 16)
  = (if decide (2 < t)%nat then S n else n) ∧
  length (Numpy.lshift_scalar (Numpy.slice_from 3 5 (Numpy.uint32_of_uint8 raw)) 8)
  = (if decide (3 < t)%nat then S n else n) ∧
  length (Numpy.slice_from 4 5 (Numpy.uint32_of_uint8 raw)) = n.
Proof.
  intros Hlen Ht. unfold Numpy.lshift_scalar, Numpy.and_scalar.
  rewrite !length_fmap, !(slice_length raw n t) by lia.
  split_and!; try done. rewrite decide_False; [done|lia].
Qed.

Lemma decode_events_raises (raw : list byte) (n t : nat) :
  length raw = (5 * n + t)%nat → (3 ≤ t < 5)%nat → (2 ≤ n)%nat →
  decode_events raw = Raise ValueError.
Proof.
  intros Hlen Ht Hn.
  destruct (ts_slices_length raw n t Hlen ltac:(lia)) as (H2 & H3 & H4).
  rewrite decide_True in H2 by lia.
  unfold decode_events, Numpy.or_array.
  destruct (decide (t = 3%nat)) as [->|Hne].
  - rewrite decide_False in H3 by lia.
    rewrite broadcast_raise; [done|lia..].
  - rewrite decide_True in H3 by lia.
    destruct (broadcast_ok_length Z.lor _ _ (or_introl (eq_trans H2 (eq_sym H3))))
      as (hi & -> & Hhi).
    rewrite decide_True in Hhi by lia. cbn [rbind].
    rewrite broadcast_raise; [done|lia..].
Qed.

Lemma decode_events_returns (raw : list byte) (n t : nat) :
  length raw = (5 * n + t)%nat → (t < 5)%nat → (t ≤ 2 ∨ n ≤ 1)%nat →
  ∃ ev : event_data,
    decode_events raw = Ok ev ∧
    length (ev_ts ev)
    = (if decide (t ≤ 2)%nat then n else if decide (n = 0)%nat then 0 else 2)%nat.
Proof.
  intros Hlen Ht Hcase.
  destruct (ts_slices_length raw n t Hlen Ht) as (H2 & H3 & H4).
  unfold decode_events, Numpy.or_array.
  destruct (broadcast_ok_length Z.lor
              (Numpy.lshift_scalar
                 (Numpy.and_scalar (Numpy.slice_from 2 5 (Numpy.uint32_of_uint8 raw)) 127) 16)
              (Numpy.lshift_scalar (Numpy.slice_from 3 5 (Numpy.uint32_of_uint8 raw)) 8))
    as (hi & -> & Hhi).
  { rewrite H2, H3. repeat case_decide; lia. }
  cbn [rbind].
  destruct (broadcast_ok_length Z.lor hi
              (Numpy.slice_from 4 5 (Numpy.uint32_of_uint8 raw)))
    as (ts & -> & Hts).
  { rewrite Hhi, H2, H3, H4. repeat case_decide; lia. }
  cbn [rbind]. eexists. split; [done|]. cbn [ev_ts].
  rewrite Hts, Hhi, H2, H3, H4. repeat case_decide; lia.
Qed.

(** X1: the decoder raises exactly on the streams of at least 13 bytes
    whose length leaves a remainder of 3 or 4 modulo 5, and the exception
    is always numpy's ValueError; on every other stream (the empty one
    included) it returns. *)
Theorem decode_events_raises_iff (raw : list byte) :
  (∀ e : exn, decode_events raw = Raise e → e = ValueError) ∧
  (decode_events raw = Raise ValueError
   ↔ (13 ≤ length raw ∧ 3 ≤ length raw mod 5)%nat).
Proof.
  pose proof (Nat.div_mod_eq (length raw) 5) as Hdiv.
  pose proof (Nat.mod_upper_bound (length raw) 5 ltac:(lia)) as Hmod.
  set (n := (length raw / 5)%nat) in *. set (t := (length raw mod 5)%nat) in *.
  assert (Hcases : (3 ≤ t ∧ 2 ≤ n)%nat ∨ (t ≤ 2 ∨ n ≤ 1)%nat) by lia.
  destruct Hcases as [[Ht Hn]|Hret].
  - rewrite (decode_events_raises raw n t) by lia.
    split; [by intros e [= <-]|]. split; [lia|done].
  - destruct (decode_events_returns raw n t Hdiv Hmod Hret) as (ev & -> & _).
    split; [done|]. split; [done|lia].
Qed.

(** ** Short streams that numpy broadcasts *)

(** X2: a stream of 3 or 4 bytes is decoded without an exception into
    one x, one y and one p but no ts at all; in a stream of 8 or 9 bytes
    the one-element slices are broadcast, so the second of the two events
    takes byte 3 and byte 4 (8 bytes), or byte 4 alone (9 bytes), of the
    first group for its timestamp. *)
Theorem short_stream_broadcast :
  (∀ b0 b1 b2 : byte,
     decode_events [b0; b1; b2]
     = Ok (EventData [Numpy.byte_val b0] [Numpy.byte_val b1]
             [Z.shiftr (Z.land (Numpy.byte_val b2) 128) 7] []))
  ∧ (∀ b0 b1 b2 b3 : byte,
       decode_events [b0; b1; b2; b3]
       = Ok (EventData [Numpy.byte_val b0] [Numpy.byte_val b1]
               [Z.shiftr (Z.land (Numpy.byte_val b2) 128) 7] []))
  ∧ (∀ b0 b1 b2 b3 b4 b5 b6 b7 : byte,
       decode_events [b0; b1; b2; b3; b4; b5; b6; b7]
       = Ok (EventData [Numpy.byte_val b0; Numpy.byte_val b5]
               [Numpy.byte_val b1; Numpy.byte_val b6]
               [Z.shiftr (Z.land (Numpy.byte_val b2) 128) 7;
                Z.shiftr (Z.land (Numpy.byte_val b7) 128) 7]
               [ts_of b2 b3 b4; ts_of b7 b3 b4]))
  ∧ (∀ b0 b1 b2 b3 b4 b5 b6 b7 b8 : byte,
       decode_events [b0; b1; b2; b3; b4; b5; b6; b7; b8]
       = Ok (EventData [Numpy.byte_val b0; Numpy.byte_val b5]
               [Numpy.byte_val b1; Numpy.byte_val b6]
               [Z.shiftr (Z.land (Numpy.byte_val b2) 128) 7;
                Z.shiftr (Z.land (Numpy.byte_val b7) 128) 7]
               [ts_of b2 b3 b4; ts_of b7 b8 b4])).
Proof. split_and!; intros; reflexivity. Qed.

(** ** Streams put end to end *)

Lemma decode_events_cons5_tail (b0 b1 b2 b3 b4 : byte) (r : list byte) (n t : nat) :
  length r = (5 * n + t)%nat → (t ≤ 2)%nat →
  ∃ ev : event_data,
    decode_events r = Ok ev ∧
    decode_events (b0 :: b1 :: b2 :: b3 :: b4 :: r)
    = Ok (EventData (Numpy.byte_val b0 :: ev_x ev) (Numpy.byte_val b1 :: ev_y ev)
            (Z.shiftr (Z.land (Numpy.byte_val b2) 128) 7 :: ev_p ev)
            (ts_of b2 b3 b4 :: ev_ts ev)).
Proof.
  intros Hlen Ht.
  destruct (ts_slices_length r n t Hlen ltac:(lia)) as (H2 & H3 & H4).
  destruct (ts_slices_length (b0 :: b1 :: b2 :: b3 :: b4 :: r) (S n) t
              ltac:(simpl; lia) ltac:(lia)) as (H2' & H3' & H4').
  rewrite decide_False in H2 by lia. rewrite decide_False in H3 by lia.
  rewrite decide_False in H2' by lia. rewrite decide_False in H3' by lia.
  unfold decode_events, Numpy.or_array.
  rewrite !broadcast_same_length by congruence.
  cbn [rbind].
  rewrite !broadcast_same_length by (rewrite length_zip_with; lia).
  cbn [rbind]. eexists. split; reflexivity.
Qed.

Lemma decode_events_app_ok (n : nat) :
  ∀ (a b : list byte) (m t : nat),
    length a = (5 * n)%nat → length b = (5 * m + t)%nat → (t ≤ 2)%nat →
    ∃ ea eb : event_data,
      decode_events a = Ok ea ∧ decode_events b = Ok eb ∧
      decode_events (a ++ b)
      = Ok (EventData (ev_x ea ++ ev_x eb) (ev_y ea ++ ev_y eb)
              (ev_p ea ++ ev_p eb) (ev_ts ea ++ ev_ts eb)).
Proof.
  induction n as [|n IH]; intros a b m t Ha Hb Ht.
  - destruct a; [|done].
    destruct (decode_events_ok b m t Hb Ht) as (ts & Hok & _).
    eexists (EventData [] [] [] []), _. split_and!; [done|exact Hok|].
    simpl. by rewrite Hok.
  - destruct a as [|b0 [|b1 [|b2 [|b3 [|b4 a]]]]]; simpl in Ha; try lia.
    destruct (IH a b m t) as (ea & eb & Hea & Heb & Hab); [lia|done..|].
    destruct (decode_events_cons5_tail b0 b1 b2 b3 b4 a n 0) as (ea' & Hea' & Hfull);
      [lia..|].
    destruct (decode_events_cons5_tail b0 b1 b2 b3 b4 (a ++ b) (n + m) t)
      as (eab & Heab & Hfull'); [rewrite length_app; lia|done|].
    rewrite Hea in Hea'. injection Hea' as <-.
    rewrite Hab in Heab. injection Heab as <-.
    eexists _, eb. split_and!; [exact Hfull|exact Heb|].
    cbn [app]. rewrite Hfull'. reflexivity.
Qed.

(** X3: events are decoded group by group with no state carried over:
    when [a] is a whole number of groups and [b] is a stream of 5m, 5m+1
    or 5m+2 bytes, both decode, and decoding [a ++ b] gives, field by
    field, the values of [a] followed by the values of [b]. *)
Theorem decode_events_app (a b : list byte) (n m t : nat) :
  length a = (5 * n)%nat → length b = (5 * m + t)%nat → (t ≤ 2)%nat →
  ∃ ea eb : event_data,
    decode_events a = Ok ea ∧ decode_events b = Ok eb ∧
    decode_events (a ++ b)
    = Ok (EventData (ev_x ea ++ ev_x eb) (ev_y ea ++ ev_y eb)
            (ev_p ea ++ ev_p eb) (ev_ts ea ++ ev_ts eb)).
Proof. intros Ha Hb Ht. by apply (decode_events_app_ok n a b m t). Qed.

Lemma decode_events_app_witness :
  decode_events ([x0a; x14; x81; x02; x03] ++ [xff; x00; x7f; xff; xfe; x01])
  = Ok (EventData [10; 255; 1] [20; 0] [1; 0] [66051; 8388606]).
Proof.
  destruct (decode_events_app [x0a; x14; x81; x02; x03]
              [xff; x00; x7f; xff; xfe; x01] 1 1 1 eq_refl eq_refl ltac:(lia))
    as (ea & eb & Ha & Hb & Hab).
  injection Ha as <-. injection Hb as <-. exact Hab.
Defined.

(** ** Every bounded record is the decoding of a stream *)

Lemma byte2_split (c : byte) (p : Z) :
  Numpy.byte_val c < 128 → p = 0 ∨ p = 1 →
  0 ≤ Z.lor (Z.shiftl p 7) (Numpy.byte_val c) < 256 ∧
  Z.shiftr (Z.land (Z.lor (Z.shiftl p 7) (Numpy.byte_val c)) 128) 7 = p ∧
  Z.land (Z.lor (Z.shiftl p 7) (Numpy.byte_val c)) 127 = Numpy.byte_val c.
Proof.
  intros Hc [-> | ->]; destruct c; vm_compute in Hc; try discriminate Hc;
    vm_compute; repeat split; discriminate.
Qed.

(** A number is determined by its bits above 16, its bits 8 to 15 and
    its low 8 bits. *)
Lemma three_parts_eq (u v : Z) :
  Z.shiftr u 16 = Z.shiftr v 16 →
  Z.land (Z.shiftr u 8) 255 = Z.land (Z.shiftr v 8) 255 →
  Z.land u 255 = Z.land v 255 →
  u = v.
Proof.
  change 255 with (Z.ones 8).
  rewrite !Z.land_ones, !Z.shiftr_div_pow2 by lia.
  change (2 ^ 16) with 65536. change (2 ^ 8) with 256.
  intros H16 H8 H0. Z.div_mod_to_equations. lia.
Qed.

Lemma event_from_bytes (x y p ts : Z) :
  0 ≤ x < 256 → 0 ≤ y < 256 → p = 0 ∨ p = 1 → 0 ≤ ts < 2 ^ 23 →
  ∃ b0 b1 b2 b3 b4 : byte,
    x = Numpy.byte_val b0 ∧ y = Numpy.byte_val b1 ∧
    p = Z.shiftr (Z.land (Numpy.byte_val b2) 128) 7 ∧
    ts = ts_of b2 b3 b4.
Proof.
  intros Hx Hy Hp Hts.
  destruct (byte_val_surj x Hx) as [b0 <-].
  destruct (byte_val_surj y Hy) as [b1 <-].
  assert (Hhigh : 0 ≤ Z.shiftr ts 16 < 128).
  { rewrite Z.shiftr_div_pow2 by lia. change (2 ^ 23) with 8388608 in Hts.
    change (2 ^ 16) with 65536. Z.div_mod_to_equations. lia. }
  destruct (byte_val_surj (Z.shiftr ts 16) ltac:(lia)) as [c Hc].
  destruct (byte2_split c p ltac:(lia) Hp) as (Hrange & Hpol & Hlow).
  destruct (byte_val_surj _ Hrange) as [b2 Hb2].
  assert (Hmid : 0 ≤ Z.land (Z.shiftr ts 8) 255 < 256).
  { change 255 with (Z.ones 8). rewrite Z.land_ones by lia.
    change (2 ^ 8) with 256. Z.div_mod_to_equations. lia. }
  destruct (byte_val_surj _ Hmid) as [b3 Hb3].
  assert (Hlast : 0 ≤ Z.land ts 255 < 256).
  { change 255 with (Z.ones 8). rewrite Z.land_ones by lia.
    change (2 ^ 8) with 256. Z.div_mod_to_equations. lia. }
  destruct (byte_val_surj _ Hlast) as [b4 Hb4].
  exists b0, b1, b2, b3, b4. rewrite Hb2. split_and!; [done..|].
  apply three_parts_eq.
  - by rewrite ts_of_shiftr_16, Hb2, Hlow, Hc.
  - by rewrite ts_of_byte3, Hb3.
  - by rewrite ts_of_byte4, Hb4.
Qed.

Lemma encode_decode (xs : list Z) :
  ∀ ys ps tss : list Z,
    length ys = length xs → length ps = length xs → length tss = length xs →
    Forall (λ v, 0 ≤ v < 256) xs → Forall (λ v, 0 ≤ v < 256) ys →
    Forall (λ v, v = 0 ∨ v = 1) ps → Forall (λ v, 0 ≤ v < 2 ^ 23) tss →
    ∃ raw : list byte,
      length raw = (5 * length xs)%nat ∧
      reference_encode (EventData xs ys ps tss) = Some raw ∧
      decode_events raw = Ok (EventData xs ys ps tss).
Proof.
  induction xs as [|x xs IH]; intros ys ps tss Hy Hp Ht Fx Fy Fp Ft.
  - destruct ys, ps, tss; try done. by exists [].
  - destruct ys as [|y ys], ps as [|p ps], tss as [|ts tss]; try done.
    apply Forall_cons in Fx as [Hx Fx]. apply Forall_cons in Fy as [Hy' Fy].
    apply Forall_cons in Fp as [Hp' Fp]. apply Forall_cons in Ft as [Ht' Ft].
    simpl in Hy, Hp, Ht.
    destruct (IH ys ps tss) as (r & Hlen & Henc & Hdec); [lia..|done|done|done|done|].
    destruct (event_from_bytes x y p ts) as (b0 & b1 & b2 & b3 & b4 & -> & -> & -> & ->);
      [done..|].
    exists (b0 :: b1 :: b2 :: b3 :: b4 :: r). split_and!.
    + simpl. lia.
    + by apply (reference_encode_cons b0 b1 b2 b3 b4 (EventData xs ys ps tss) r).
    + destruct (decode_events_cons5 b0 b1 b2 b3 b4 r (length xs) Hlen)
        as (ev & Hev & Hfull).
      rewrite Hdec in Hev. injection Hev as <-. exact Hfull.
Qed.

(** X4: the bounds on the decoded values are exact: four sequences of
    one length whose values satisfy x, y < 256, p in {0, 1}, ts < 2^23
    are encoded by the reference encoder into a stream of 5 bytes per
    event, and the decoder maps that stream back to the same four
    sequences. *)
Theorem bounded_record_is_decoded (xs ys ps tss : list Z) :
  length ys = length xs → length ps = length xs → length tss = length xs →
  Forall (λ v, 0 ≤ v < 256) xs → Forall (λ v, 0 ≤ v < 256) ys →
  Forall (λ v, v = 0 ∨ v = 1) ps → Forall (λ v, 0 ≤ v < 2 ^ 23) tss →
  ∃ raw : list byte,
    length raw = (5 * length xs)%nat ∧
    reference_encode (EventData xs ys ps tss) = Some raw ∧
    decode_events raw = Ok (EventData xs ys ps tss).
Proof. apply encode_decode. Qed.

Lemma bounded_record_is_decoded_witness :
  ∃ raw : list byte,
    length raw = 10%nat ∧
    reference_encode (EventData [33; 0] [255; 17] [1; 0] [8388607; 66051]) = Some raw ∧
    decode_events raw = Ok (EventData [33; 0] [255; 17] [1; 0] [8388607; 66051]).
Proof.
  apply (bounded_record_is_decoded [33; 0] [255; 17] [1; 0] [8388607; 66051]);
    try reflexivity; repeat constructor; try discriminate; by right.
Defined.

(** * Further properties of the loader *)

(** ** One file: reading, writing, unlinking *)

Lemma parent_snoc (dir : path) (name : string) : parent (dir ++ [name]) = dir.
Proof. unfold parent. apply removelast_last. Qed.

Lemma read_bytes_ok (p : path) (raw : list byte) (w : world) :
  p ∉ dirs w → files w !! p = Some raw →
  read_bytes p w = (Ok raw, World (dirs w) (files w) (trace w ++ [EOpen p])).
Proof.
  intros Hdir Hfile. unfold read_bytes, bind, log. cbn [dirs files trace].
  rewrite decide_False by done. by rewrite Hfile.
Qed.

Lemma unlink_ok (p : path) (raw : list byte) (w : world) :
  files w !! p = Some raw →
  unlink p w = (Ok tt, World (dirs w) (delete p (files w)) (trace w ++ [EUnlink p])).
Proof.
  intros Hfile. unfold unlink, bind, log. cbn [dirs files trace]. by rewrite Hfile.
Qed.

Section ConversionMore.

Variable npz_bytes : event_data → list byte.
Variable write_env : path → list byte → write_end.

Lemma savez_ok (p : path) (ev : event_data) (w : world) :
  savez_target p ∉ dirs w →
  parent (savez_target p) = [] ∨ parent (savez_target p) ∈ dirs w →
  write_env (savez_target p) (npz_bytes ev) = Completes →
  savez npz_bytes write_env p ev w
  = (Ok tt, World (dirs w) (<[savez_target p := npz_bytes ev]> (files w))
              (trace w ++ [ESavez (savez_target p)])).
Proof.
  intros Hdir Hparent Hwrite. unfold savez, bind, log. cbn [dirs files trace].
  rewrite decide_False by done. rewrite decide_True by done. by rewrite Hwrite.
Qed.

Lemma decode_binary_to_npz_ok (self : NMNIST) (src dst : path) (w : world)
    (raw : list byte) (ev : event_data) :
  src ∉ dirs w → files w !! src = Some raw → decode_events raw = Ok ev →
  savez_target dst ∉ dirs w →
  parent (savez_target dst) = [] ∨ parent (savez_target dst) ∈ dirs w →
  write_env (savez_target dst) (npz_bytes ev) = Completes →
  decode_binary_to_npz npz_bytes write_env self src dst w
  = (Ok tt, World (dirs w) (<[savez_target dst := npz_bytes ev]> (files w))
              (trace w ++ [EOpen src; ESavez (savez_target dst)])).
Proof.
  intros Hsrc Hraw Hev Hdir Hparent Hwrite.
  unfold decode_binary_to_npz, bind. rewrite (read_bytes_ok src raw) by done.
  unfold lift. rewrite Hev. rewrite savez_ok by done.
  cbn [dirs files trace]. by rewrite <- (assoc_L (++)).
Qed.



Lemma decode_file_ok (self : NMNIST) (target_class_dir bin_file : path)
    (name : string) (w : world) (raw : list byte) (ev : event_data) :
  last bin_file = Some name →
  bin_file ∉ dirs w → files w !! bin_file = Some raw → decode_events raw = Ok ev →
  target_class_dir ++ [before_dot name +:+ ".npz"] ∉ dirs w →
  target_class_dir = [] ∨ target_class_dir ∈ dirs w →
  target_class_dir ++ [before_dot name +:+ ".npz"] ≠ bin_file →
  write_env (target_class_dir ++ [before_dot name +:+ ".npz"]) (npz_bytes ev) = Completes →
  decode_file npz_bytes write_env self target_class_dir bin_file w
  = (Ok tt,
     World (dirs w)
       (delete bin_file
          (<[target_class_dir ++ [before_dot name +:+ ".npz"] := npz_bytes ev]> (files w)))
       (trace w ++ [EOpen bin_file;
                    ESavez (target_class_dir ++ [before_dot name +:+ ".npz"]);
                    EUnlink bin_file])).
Proof.
  intros Hlast Hdir Hraw Hev Htdir Hparent Hne Hwrite.
  unfold decode_file, last_part. rewrite Hlast.
  unfold bind at 1. unfold ret. unfold bind.
  pose proof (savez_target_npz target_class_dir (before_dot name)) as Htarget.
  rewrite (decode_binary_to_npz_ok self bin_file _ w raw ev)
    by (rewrite ?Htarget, ?parent_snoc; done).
  rewrite Htarget.
  rewrite (unlink_ok bin_file raw) by (cbn [files]; by rewrite lookup_insert_ne).
  cbn [dirs files trace]. by rewrite <- (assoc_L (++)).
Qed.

(** X7: the step that converts one file, when nothing fails: the
    archive of the decoded events is at [target_class_dir/<stem>.npz],
    where the stem is the name of the source up to its first dot, the
    source is gone, and no other file and no directory has changed; the
    accesses are an open, a savez and an unlink, in this order. *)
Theorem decode_file_converts (self : NMNIST) (target_class_dir bin_file : path)
    (name : string) (w : world) (raw : list byte) (ev : event_data) :
  last bin_file = Some name →
  bin_file ∉ dirs w → files w !! bin_file = Some raw → decode_events raw = Ok ev →
  target_class_dir ++ [before_dot name +:+ ".npz"] ∉ dirs w →
  target_class_dir = [] ∨ target_class_dir ∈ dirs w →
  target_class_dir ++ [before_dot name +:+ ".npz"] ≠ bin_file →
  write_env (target_class_dir ++ [before_dot name +:+ ".npz"]) (npz_bytes ev) = Completes →
  decode_file npz_bytes write_env self target_class_dir bin_file w
  = (Ok tt,
     World (dirs w)
       (delete bin_file
          (<[target_class_dir ++ [before_dot name +:+ ".npz"] := npz_bytes ev]> (files w)))
       (trace w ++ [EOpen bin_file;
                    ESavez (target_class_dir ++ [before_dot name +:+ ".npz"]);
                    EUnlink bin_file])).
Proof. apply decode_file_ok. Qed.

Lemma before_dot_ext (s e : string) :
  before_dot (s +:+ "." +:+ e) = before_dot s.
Proof.
  induction s as [|c s IH]; [done|]. simpl.
  destruct (Ascii.eqb c "."); [done|]. by rewrite IH.
Qed.

(** X8: the name of the archive keeps only the text before the first
    dot of the source name, so two sources of one class directory whose
    names differ after that dot share one archive: converting both, with
    nothing failing, leaves neither source and a single archive that
    holds the events of the second one only. *)
Theorem same_stem_overwrites (self : NMNIST) (target_class_dir class_dir : path)
    (s e1 e2 : string) (w : world) (raw1 raw2 : list byte) (ev1 ev2 : event_data) :
  let f1 := class_dir ++ [s +:+ "." +:+ e1] in
  let f2 := class_dir ++ [s +:+ "." +:+ e2] in
  let target := target_class_dir ++ [before_dot s +:+ ".npz"] in
  e1 ≠ e2 → f1 ∉ dirs w → f2 ∉ dirs w →
  files w !! f1 = Some raw1 → files w !! f2 = Some raw2 →
  decode_events raw1 = Ok ev1 → decode_events raw2 = Ok ev2 →
  target ∉ dirs w → target_class_dir = [] ∨ target_class_dir ∈ dirs w →
  target ≠ f1 → target ≠ f2 →
  write_env target (npz_bytes ev1) = Completes →
  write_env target (npz_bytes ev2) = Completes →
  ∃ w' : world,
    for_each [f1; f2] (decode_file npz_bytes write_env self target_class_dir) w
    = (Ok tt, w') ∧
    files w' !! f1 = None ∧ files w' !! f2 = None ∧
    files w' !! target = Some (npz_bytes ev2) ∧
    ∀ q, q ≠ f1 → q ≠ f2 → q ≠ target → files w' !! q = files w !! q.
Proof.
  intros f1 f2 target Hext Hd1 Hd2 Hr1 Hr2 Hev1 Hev2 Htd Hparent Hn1 Hn2 Hw1 Hw2.
  assert (Hne : f1 ≠ f2).
  { unfold f1, f2. intros Heq. apply app_inv_head in Heq.
    injection Heq as Heq. do 2 apply (inj (String.app _)) in Heq. done. }
  assert (Hn1' : target_class_dir ++ [before_dot (s +:+ "." +:+ e1) +:+ ".npz"] = target)
    by (by rewrite before_dot_ext).
  assert (Hn2' : target_class_dir ++ [before_dot (s +:+ "." +:+ e2) +:+ ".npz"] = target)
    by (by rewrite before_dot_ext).
  cbn [for_each]. unfold bind.
  rewrite (decode_file_ok self target_class_dir f1 (s +:+ "." +:+ e1) w raw1 ev1)
    by (rewrite ?Hn1'; first [apply last_snoc | done]).
  rewrite Hn1'.
  rewrite (decode_file_ok self target_class_dir f2 (s +:+ "." +:+ e2) _ raw2 ev2);
    rewrite ?Hn2'; cbn [dirs files trace];
    try first [apply last_snoc | done].
  - unfold ret. eexists. split; [reflexivity|]. cbn [files]. split_and!.
    + rewrite lookup_delete_ne, lookup_insert_ne, lookup_delete_eq by done. done.
    + by rewrite lookup_delete_eq.
    + by rewrite lookup_delete_ne, lookup_insert_eq by done.
    + intros q Hq1 Hq2 Hqt.
      by rewrite lookup_delete_ne, lookup_insert_ne, lookup_delete_ne,
        lookup_insert_ne by done.
  - by rewrite lookup_delete_ne, lookup_insert_ne by done.
Qed.

End ConversionMore.

(** ** Download and construction *)

Lemma urls_lookup (split : string) :
  (split = "train" ∨ split = "test" → is_Some (urls !! split)) ∧
  (split ≠ "train" → split ≠ "test" → urls !! split = None).
Proof.
  unfold urls. split.
  - intros [-> | ->]; by eexists.
  - intros Htrain Htest.
    rewrite lookup_insert_ne by done. by rewrite lookup_singleton_ne.
Qed.

Lemma md5s_lookup (split : string) :
  split = "train" ∨ split = "test" → is_Some (md5s !! split).
Proof. unfold md5s. intros [-> | ->]; by eexists. Qed.

Section Construction.

Variable download_and_extract_archive : string → path → string → string → io unit.

Lemma download_present (self : NMNIST) (w : world) :
  _base_folder self ++ [capitalize (_split self)] ∈ dirs w →
  download download_and_extract_archive self w
  = (Ok tt, World (dirs w) (files w)
              (trace w ++ [EIsDir (_base_folder self ++ [capitalize (_split self)])])).
Proof.
  intros Hdir. unfold download, _check_exist, is_dir, bind, log, ret.
  cbn [dirs files trace]. by rewrite bool_decide_eq_true_2.
Qed.

Lemma download_missing (self : NMNIST) (w : world) (url md5 : string) :
  _base_folder self ++ [capitalize (_split self)] ∉ dirs w →
  urls !! _split self = Some url → md5s !! _split self = Some md5 →
  download download_and_extract_archive self w
  = download_and_extract_archive url (_base_folder self) (_split self +:+ ".zip") md5
      (World (dirs w) (files w)
         (trace w ++ [EIsDir (_base_folder self ++ [capitalize (_split self)]);
                      EDownload url (_base_folder self) (_split self +:+ ".zip") md5])).
Proof.
  intros Hdir Hurl Hmd5. unfold download, _check_exist, is_dir, getitem, bind, log, ret.
  cbn [dirs files trace]. rewrite bool_decide_eq_false_2 by done. cbn [negb].
  rewrite Hurl, Hmd5. cbn [dirs files trace]. by rewrite <- (assoc_L (++)).
Qed.

(** X9: [download] on a data set that is already there does nothing
    but test the directory: the collaborator is not called, and the files
    and directories are as before. *)
Theorem download_skips_when_present (self : NMNIST) (w : world) :
  _base_folder self ++ [capitalize (_split self)] ∈ dirs w →
  download download_and_extract_archive self w
  = (Ok tt, World (dirs w) (files w)
              (trace w ++ [EIsDir (_base_folder self ++ [capitalize (_split self)])])).
Proof. apply download_present. Qed.

(** X10: [download] on a missing data set hands over to
    [download_and_extract_archive] with the URL and the checksum that the
    class tables give for the split, the base folder as destination and
    [<split>.zip] as file name, and its outcome is the collaborator's;
    for a split that is in neither table it raises KeyError on the split
    before anything is fetched. *)
Theorem download_fetches (self : NMNIST) (w : world) :
  _base_folder self ++ [capitalize (_split self)] ∉ dirs w →
  (_split self = "train" ∨ _split self = "test" →
   ∃ url md5 : string,
     urls !! _split self = Some url ∧ md5s !! _split self = Some md5 ∧
     download download_and_extract_archive self w
     = download_and_extract_archive url (_base_folder self) (_split self +:+ ".zip") md5
         (World (dirs w) (files w)
            (trace w ++ [EIsDir (_base_folder self ++ [capitalize (_split self)]);
                         EDownload url (_base_folder self) (_split self +:+ ".zip") md5])))
  ∧ (_split self ≠ "train" → _split self ≠ "test" →
     download download_and_extract_archive self w
     = (Raise (KeyError (_split self)),
        World (dirs w) (files w)
          (trace w ++ [EIsDir (_base_folder self ++ [capitalize (_split self)])]))).
Proof.
  intros Hdir. split.
  - intros Hsplit.
    destruct (proj1 (urls_lookup (_split self)) Hsplit) as [url Hurl].
    destruct (md5s_lookup (_split self) Hsplit) as [md5 Hmd5].
    exists url, md5. split_and!; [done..|]. by apply download_missing.
  - intros Htrain Htest.
    unfold download, _check_exist, is_dir, getitem, bind, log, ret, raise.
    cbn [dirs files trace]. rewrite bool_decide_eq_false_2 by done. cbn [negb].
    by rewrite (proj2 (urls_lookup (_split self)) Htrain Htest).
Qed.

(** X11: whatever the collaborator does, an instance is only ever
    returned for the split "train" or "test", it records the root, the
    split and [root/NMNIST] as base folder, and the directory of the split
    exists in the world the constructor leaves. *)
Theorem init_postcondition (root : path) (split : string) (download_flag : bool)
    (w w' : world) (self : NMNIST) :
  __init__ download_and_extract_archive root split download_flag w = (Ok self, w') →
  (split = "train" ∨ split = "test") ∧
  self = Build_NMNIST root split (root ++ ["NMNIST"]) ∧
  root ++ ["NMNIST"; capitalize split] ∈ dirs w'.
Proof.
  unfold __init__. case_bool_decide as Hsplit; [|done]. cbn [negb].
  intros Hrun. split.
  { rewrite !elem_of_cons, elem_of_nil in Hsplit. tauto. }
  unfold bind at 1 in Hrun.
  match type of Hrun with
  | context [let (_, _) := ?m w in _] => destruct (m w) as [[[]|e] w1]; [|done]
  end.
  unfold _check_exist, is_dir, bind, log, ret, raise in Hrun.
  cbn [_base_folder _split dirs files trace base_foler] in Hrun.
  case_bool_decide as Hdir; [|done]. cbn [negb] in Hrun.
  injection Hrun as <- <-. split; [done|]. cbn [dirs].
  by rewrite <- (assoc_L (++)) in Hdir.
Qed.

(** X12: construction with [download=True] of a missing data set: an
    exception of the collaborator is the outcome of the constructor,
    unchanged; when the collaborator returns, the directory is tested
    again, and the constructor raises the "not found" RuntimeError if it
    is still missing and returns the instance if it is there. *)
Theorem init_download_outcomes (root : path) (split url md5 : string) (w : world) :
  let self := Build_NMNIST root split (root ++ ["NMNIST"]) in
  let split_dir := root ++ ["NMNIST"; capitalize split] in
  let w0 := World (dirs w) (files w)
              (trace w ++ [EIsDir split_dir;
                           EDownload url (root ++ ["NMNIST"]) (split +:+ ".zip") md5]) in
  split = "train" ∨ split = "test" →
  urls !! split = Some url → md5s !! split = Some md5 →
  split_dir ∉ dirs w →
  (∀ e w1,
     download_and_extract_archive url (root ++ ["NMNIST"]) (split +:+ ".zip") md5 w0
     = (Raise e, w1) →
     __init__ download_and_extract_archive root split true w = (Raise e, w1))
  ∧ (∀ w1,
       download_and_extract_archive url (root ++ ["NMNIST"]) (split +:+ ".zip") md5 w0
       = (Ok tt, w1) →
       split_dir ∉ dirs w1 →
       __init__ download_and_extract_archive root split true w
       = (Raise (RuntimeError
                   "Dataset not found, you can use `download=True` to download it."),
          World (dirs w1) (files w1) (trace w1 ++ [EIsDir split_dir])))
  ∧ (∀ w1,
       download_and_extract_archive url (root ++ ["NMNIST"]) (split +:+ ".zip") md5 w0
       = (Ok tt, w1) →
       split_dir ∈ dirs w1 →
       __init__ download_and_extract_archive root split true w
       = (Ok self, World (dirs w1) (files w1) (trace w1 ++ [EIsDir split_dir]))).
Proof.
  intros self split_dir w0 Hsplit Hurl Hmd5 Hmissing.
  assert (Hdl : download download_and_extract_archive self w
                = download_and_extract_archive url (root ++ ["NMNIST"])
                    (split +:+ ".zip") md5 w0).
  { rewrite (download_missing self w url md5); try done.
    - unfold w0, split_dir, self. cbn [_base_folder _split].
      by rewrite <- (assoc_L (++)).
    - unfold self. cbn [_base_folder _split]. by rewrite <- (assoc_L (++)). }
  assert (Hinit : __init__ download_and_extract_archive root split true w
                  = bind (download download_and_extract_archive self)
                      (λ _, bind (_check_exist self) (λ exists_,
                         if negb exists_
                         then raise (RuntimeError not_found_message)
                         else ret self)) w).
  { unfold __init__. rewrite bool_decide_eq_true_2; [done|].
    rewrite !elem_of_cons. tauto. }
  split_and!.
  - intros e w1 Hcall. rewrite Hinit. unfold bind at 1. by rewrite Hdl, Hcall.
  - intros w1 Hcall Hstill. rewrite Hinit. unfold bind at 1. rewrite Hdl, Hcall.
    unfold _check_exist, is_dir, bind, log, ret, raise.
    unfold self. cbn [_base_folder _split dirs files trace].
    rewrite <- (assoc_L (++)). cbn [app]. by rewrite bool_decide_eq_false_2.
  - intros w1 Hcall Hthere. rewrite Hinit. unfold bind at 1. rewrite Hdl, Hcall.
    unfold _check_exist, is_dir, bind, log, ret, raise.
    unfold self. cbn [_base_folder _split dirs files trace].
    rewrite <- (assoc_L (++)). cbn [app]. by rewrite bool_decide_eq_true_2.
Qed.

(** X13: construction over a data set that is already there returns
    the instance without changing a file or a directory and without a
    download, with or without [download=True]; the directory is tested
    once, or twice when a download was asked for. *)
Theorem init_present (root : path) (split : string) (download_flag : bool) (w : world) :
  split = "train" ∨ split = "test" →
  root ++ ["NMNIST"; capitalize split] ∈ dirs w →
  __init__ download_and_extract_archive root split download_flag w
  = (Ok (Build_NMNIST root split (root ++ ["NMNIST"])),
     World (dirs w) (files w)
       (trace w ++ (if download_flag
                    then [EIsDir (root ++ ["NMNIST"; capitalize split]);
                          EIsDir (root ++ ["NMNIST"; capitalize split])]
                    else [EIsDir (root ++ ["NMNIST"; capitalize split])]))).
Proof.
  intros Hsplit Hdir. unfold __init__.
  rewrite bool_decide_eq_true_2 by (rewrite !elem_of_cons; tauto). cbn [negb].
  assert (Hdir' : (root ++ [base_foler]) ++ [capitalize split] ∈ dirs w)
    by (by rewrite <- (assoc_L (++))).
  destruct download_flag.
  - unfold bind at 1. rewrite download_present by done.
    unfold _check_exist, is_dir, bind, log, ret.
    cbn [_base_folder _split dirs files trace].
    rewrite bool_decide_eq_true_2 by done. cbn [negb].
    unfold base_foler. by rewrite <- !(assoc_L (++)).
  - unfold _check_exist, is_dir, bind, log, ret.
    cbn [_base_folder _split dirs files trace].
    rewrite bool_decide_eq_true_2 by done. cbn [negb].
    unfold base_foler. by rewrite <- !(assoc_L (++)).
Qed.

End Construction.

(** ** The whole conversion: what [decode] never does *)

Lemma decode_frame_refl (source_dir target_dir : path) (w : world) :
  decode_frame source_dir target_dir w w.
Proof. unfold decode_frame. split_and!; auto. Qed.

Lemma decode_frame_trans (source_dir target_dir : path) (w1 w2 w3 : world) :
  decode_frame source_dir target_dir w1 w2 →
  decode_frame source_dir target_dir w2 w3 →
  decode_frame source_dir target_dir w1 w3.
Proof.
  intros (Hd & Hn & Hdel & Hnew) (Hd' & Hn' & Hdel' & Hnew'). split_and!.
  - set_solver.
  - intros d Hin. destruct (Hn' d Hin) as [Hin'|?]; [|by right]. by apply Hn.
  - intros p Hp. destruct (Hdel p Hp) as [Hp'|?]; [|by right]. by apply Hdel'.
  - intros p Hp. destruct (Hnew' p Hp) as [Hp'|?]; [|by right]. by apply Hnew.
Qed.

(** A step that touches the trace only. *)
Lemma decode_frame_same (source_dir target_dir : path) (w w' : world) :
  dirs w' = dirs w → files w' = files w → decode_frame source_dir target_dir w w'.
Proof.
  intros Hd Hf. unfold decode_frame. rewrite Hd, Hf. split_and!; auto.
Qed.

Lemma for_each_frame {A} (source_dir target_dir : path) (l : list A)
    (body : A → io unit) :
  (∀ a, a ∈ l → ∀ w r w', body a w = (r, w') → decode_frame source_dir target_dir w w') →
  ∀ w r w', for_each l body w = (r, w') → decode_frame source_dir target_dir w w'.
Proof.
  induction l as [|a l IH]; intros Hbody w r w' Hrun.
  - injection Hrun as <- <-. apply decode_frame_refl.
  - cbn [for_each] in Hrun. unfold bind in Hrun.
    destruct (body a w) as [[[]|e] w1] eqn:Ha.
    + eapply decode_frame_trans.
      * eapply Hbody; [apply list_elem_of_here|exact Ha].
      * eapply IH; [|exact Hrun]. intros b Hb. apply Hbody. by apply list_elem_of_further.
    + injection Hrun as <- <-. eapply Hbody; [apply list_elem_of_here|exact Ha].
Qed.

Lemma iterdir_inv (p : path) (w w' : world) (r : result (list path)) :
  iterdir p w = (r, w') →
  dirs w' = dirs w ∧ files w' = files w ∧
  ∀ l, r = Ok l → ∀ q, q ∈ l → q ≠ [] ∧ parent q = p.
Proof.
  unfold iterdir, bind, log. cbn [dirs files trace]. intros Hrun.
  repeat case_decide; simplify_eq; cbn [dirs files]; split_and!; try done.
  intros l [= <-] q Hq. apply elem_of_elements, elem_of_filter in Hq. tauto.
Qed.

Lemma mkdir_inv (p : path) (w w' : world) (r : result unit) :
  mkdir p w = (r, w') →
  files w' = files w ∧ dirs w ⊆ dirs w' ∧
  ∀ d, d ∈ dirs w' → d ∈ dirs w ∨ d `prefix_of` p.
Proof.
  unfold mkdir, bind, log. cbn [dirs files trace]. intros Hrun.
  repeat case_decide; simplify_eq; cbn [dirs files]; split_and!; auto.
  - set_solver.
  - intros d Hin. apply elem_of_union in Hin as [?|Hin]; [by left|right].
    apply elem_of_list_to_set in Hin. unfold ancestors_and_self in Hin.
    apply list_elem_of_fmap in Hin as (n & -> & _). apply prefix_take.
Qed.

Section DecodeFrame.

Variable npz_bytes : event_data → list byte.
Variable write_env : path → list byte → write_end.

Lemma decode_binary_to_npz_dirs (self : NMNIST) (src dst : path)
    (w w' : world) (r : result unit) :
  decode_binary_to_npz npz_bytes write_env self src dst w = (r, w') → dirs w' = dirs w.
Proof.
  unfold decode_binary_to_npz, read_bytes, savez, lift, bind, log.
  cbn [dirs files trace]. intros Hrun.
  repeat case_match; by simplify_eq.
Qed.

Lemma decode_file_frame (self : NMNIST) (target_class_dir bin_file : path)
    (w w' : world) (r : result unit) :
  decode_file npz_bytes write_env self target_class_dir bin_file w = (r, w') →
  dirs w' = dirs w ∧
  (∀ p, is_Some (files w !! p) → is_Some (files w' !! p) ∨ p = bin_file) ∧
  (∀ p, is_Some (files w' !! p) →
        is_Some (files w !! p) ∨ ∃ s, p = target_class_dir ++ [s +:+ ".npz"]).
Proof.
  unfold decode_file, last_part. intros Hrun.
  destruct (last bin_file) as [name|].
  - unfold bind at 1 in Hrun. unfold ret in Hrun. unfold bind in Hrun.
    destruct (decode_binary_to_npz _ _ _ _ _ w) as [r1 w1] eqn:Hdec.
    pose proof (decode_binary_to_npz_dirs _ _ _ _ _ _ Hdec) as Hdirs.
    pose proof (decode_binary_to_npz_inv _ _ _ _ _ _ _ _ Hdec)
      as (Hkeep & Hother & _ & _).
    rewrite savez_target_npz in Hother.
    assert (Hnew : ∀ p, is_Some (files w1 !! p) →
              is_Some (files w !! p) ∨
              ∃ s, p = target_class_dir ++ [s +:+ ".npz"]).
    { intros p Hp.
      destruct (decide (p = target_class_dir ++ [before_dot name +:+ ".npz"]))
        as [->|Hne]; [right; by eexists|left]. by rewrite <- Hother. }
    destruct r1 as [[]|e1].
    + unfold unlink, bind, log in Hrun. cbn [dirs files trace] in Hrun.
      repeat case_match; simplify_eq; cbn [dirs files]; split_and!; try done.
      * intros p Hp. destruct (decide (p = bin_file)) as [->|Hne]; [by right|left].
        rewrite lookup_delete_ne by done. by apply Hkeep.
      * intros p Hp. apply Hnew.
        destruct (decide (p = bin_file)) as [->|Hne].
        -- rewrite lookup_delete_eq in Hp. by destruct Hp.
        -- by rewrite lookup_delete_ne in Hp.
      * intros p Hp. left. by apply Hkeep.
      * intros p Hp. left. by apply Hkeep.
    + simplify_eq. split_and!; [done| |done]. intros p Hp. left. by apply Hkeep.
  - unfold raise, bind in Hrun. simplify_eq. split_and!; auto.
Qed.

Lemma decode_frame_holds (self : NMNIST) (w w' : world) (r : result unit) :
  decode npz_bytes write_env self w = (r, w') →
  decode_frame (_base_folder self ++ [capitalize (_split self)])
               (_base_folder self ++ [capitalize (_split self) +:+ "_npz"]) w w'.
Proof.
  set (source_dir := _base_folder self ++ [capitalize (_split self)]).
  set (target_dir := _base_folder self ++ [capitalize (_split self) +:+ "_npz"]).
  unfold decode. fold source_dir target_dir. intros Hrun.
  unfold bind at 1 in Hrun.
  destruct (iterdir source_dir w) as [[class_dirs|e] w1] eqn:Hlist.
  2:{ injection Hrun as <- <-.
      destruct (iterdir_inv _ _ _ _ Hlist) as (Hd & Hf & _).
      by apply decode_frame_same. }
  destruct (iterdir_inv _ _ _ _ Hlist) as (Hd & Hf & Hclass).
  eapply decode_frame_trans; [by apply decode_frame_same|].
  specialize (Hclass class_dirs eq_refl).
  unfold bind at 1 in Hrun.
  destruct (for_each class_dirs _ w1) as [r2 w2] eqn:Hloop.
  assert (Hframe : decode_frame source_dir target_dir w1 w2).
  { eapply for_each_frame; [|exact Hloop].
    intros class_dir_name Hin wa ra wb Hbody.
    destruct (Hclass _ Hin) as [_ Hparent].
    unfold last_part in Hbody. destruct (last class_dir_name) as [name|].
    2:{ unfold raise, bind in Hbody. injection Hbody as <- <-.
        apply decode_frame_refl. }
    unfold bind at 1 in Hbody. unfold ret in Hbody. unfold bind at 1 in Hbody.
    destruct (mkdir (target_dir ++ [name]) wa) as [rm wm] eqn:Hmk.
    destruct (mkdir_inv _ _ _ _ Hmk) as (Hmf & Hmd & Hmnew).
    assert (Hstep1 : decode_frame source_dir target_dir wa wm).
    { unfold decode_frame. rewrite Hmf. split_and!; auto.
      intros d Hd'. destruct (Hmnew d Hd') as [?|?]; [by left|right; by exists name]. }
    destruct rm as [[]|em]; [|by injection Hbody as <- <-].
    eapply decode_frame_trans; [exact Hstep1|].
    unfold bind at 1 in Hbody.
    destruct (iterdir class_dir_name wm) as [[bin_files|e] wl] eqn:Hlist2.
    2:{ injection Hbody as <- <-.
        destruct (iterdir_inv _ _ _ _ Hlist2) as (Hd2 & Hf2 & _).
        by apply decode_frame_same. }
    destruct (iterdir_inv _ _ _ _ Hlist2) as (Hd2 & Hf2 & Hbins).
    eapply decode_frame_trans; [by apply decode_frame_same|].
    specialize (Hbins bin_files eq_refl).
    eapply for_each_frame; [|exact Hbody].
    intros bin_file Hbin wc rc wd Hfile.
    destruct (Hbins _ Hbin) as [_ Hparent2].
    destruct (decode_file_frame _ _ _ _ _ _ Hfile) as (Hfd & Hfdel & Hfnew).
    unfold decode_frame. rewrite Hfd. split_and!; auto.
    - intros p Hp. destruct (Hfdel p Hp) as [?| ->]; [by left|right].
      by rewrite Hparent2, Hparent.
    - intros p Hp. destruct (Hfnew p Hp) as [?|[s ->]]; [by left|right].
      exists name, s. by rewrite <- (assoc_L (++)). }
  destruct r2 as [[]|e2]; [|by injection Hrun as <- <-].
  eapply decode_frame_trans; [exact Hframe|].
  unfold print, log in Hrun. injection Hrun as <- <-.
  by apply decode_frame_same.
Qed.

(** X14: what a run of [decode] can change, whether it returns or
    raises: no directory is removed, and a directory that is new lies on
    the way to a class directory of [<Split>_npz]; a file that is gone
    was two levels below the directory of the split; a file that is new
    is [<Split>_npz/<class>/<stem>.npz]. *)
Theorem decode_changes_only_its_trees (self : NMNIST) (w w' : world) (r : result unit) :
  decode npz_bytes write_env self w = (r, w') →
  dirs w ⊆ dirs w' ∧
  (∀ d, d ∈ dirs w' → d ∉ dirs w →
        ∃ c, d `prefix_of` _base_folder self ++ [capitalize (_split self) +:+ "_npz"; c]) ∧
  (∀ p, is_Some (files w !! p) → files w' !! p = None →
        parent (parent p) = _base_folder self ++ [capitalize (_split self)]) ∧
  (∀ p, files w !! p = None → is_Some (files w' !! p) →
        ∃ c s, p = _base_folder self ++ [capitalize (_split self) +:+ "_npz"; c; s +:+ ".npz"]).
Proof.
  intros Hrun. destruct (decode_frame_holds self w w' r Hrun) as (Hd & Hn & Hdel & Hnew).
  split_and!; [done|..].
  - intros d Hin Hnot. destruct (Hn d Hin) as [?|[c Hc]]; [done|].
    exists c. by rewrite <- (assoc_L (++)) in Hc.
  - intros p Hp Hgone. destruct (Hdel p Hp) as [[? Hstill]|?]; [congruence|done].
  - intros p Hnone Hp. destruct (Hnew p Hp) as [[? Hwas]|(c & s & ->)]; [congruence|].
    exists c, s. by rewrite <- (assoc_L (++)).
Qed.

End DecodeFrame.

(** ** The whole conversion: nothing to read, and everything read *)

Lemma string_app_ne (s t : string) : t ≠ "" → s +:+ t ≠ s.
Proof.
  intros Ht Heq. assert (Hlen := f_equal String.length Heq).
  rewrite string_length_app in Hlen. destruct t; [done|]. simpl in Hlen. lia.
Qed.

Lemma parent_parent_target (target_dir : path) (c s : string) :
  parent (parent (target_dir ++ [c; s])) = target_dir.
Proof.
  replace (target_dir ++ [c; s]) with ((target_dir ++ [c]) ++ [s])
    by (by rewrite <- (assoc_L (++))).
  by rewrite !parent_snoc.
Qed.

(** A file two levels below the source that is absent stays absent. *)
Lemma decode_frame_absent (base : path) (split_name : string) (w w' : world) (p : path) :
  decode_frame (base ++ [split_name]) (base ++ [split_name +:+ "_npz"]) w w' →
  parent (parent p) = base ++ [split_name] →
  files w !! p = None → files w' !! p = None.
Proof.
  intros (_ & _ & _ & Hnew) Hp Hnone.
  destruct (files w' !! p) as [raw|] eqn:Hlook; [|done].
  destruct (Hnew p) as [[? Hwas]|(c & s & ->)]; [by eexists|congruence|].
  rewrite parent_parent_target in Hp. apply app_inv_head in Hp.
  injection Hp as Hp. by apply string_app_ne in Hp.
Qed.

Section DecodeEdges.

Variable npz_bytes : event_data → list byte.
Variable write_env : path → list byte → write_end.


(** X16: [decode] over a directory of the split that has no entry
    lists it, prints its message and returns; no file or directory is
    created, changed or removed. *)
Theorem decode_empty_source (self : NMNIST) (w : world) :
  _base_folder self ++ [capitalize (_split self)] ∈ dirs w →
  files w !! (_base_folder self ++ [capitalize (_split self)]) = None →
  (∀ q, q ∈ dirs w ∨ is_Some (files w !! q) →
        parent q ≠ _base_folder self ++ [capitalize (_split self)]) →
  decode npz_bytes write_env self w
  = (Ok tt,
     World (dirs w) (files w)
       (trace w ++ [EIterdir (_base_folder self ++ [capitalize (_split self)]);
                    EPrint "Decoded all the files. "])).
Proof.
  intros Hdir Hfile Hempty. unfold decode, bind at 1. unfold iterdir, bind, log.
  cbn [dirs files trace]. rewrite Hfile.
  rewrite decide_False by (by intros [? ?]).
  rewrite decide_True by (by right).
  assert (Hnone : elements
            (filter (λ q, q ≠ [] ∧ parent q = _base_folder self ++ [capitalize (_split self)])
                    (dirs w ∪ dom (files w))) = []).
  { apply elements_empty_iff. intros q. split; [|set_solver].
    intros Hq. apply elem_of_filter in Hq as [[_ Hparent] Hin].
    exfalso. apply (Hempty q); [|done].
    apply elem_of_union in Hin as [?|Hin]; [by left|right].
    by apply elem_of_dom in Hin. }
  rewrite Hnone. cbn [for_each]. unfold ret, print, log. cbn [dirs files trace].
  by rewrite <- (assoc_L (++)).
Qed.

Lemma decode_file_ok_gone (self : NMNIST) (target_class_dir bin_file : path)
    (w w' : world) :
  decode_file npz_bytes write_env self target_class_dir bin_file w = (Ok tt, w') →
  files w' !! bin_file = None.
Proof.
  unfold decode_file, last_part. intros Hrun.
  destruct (last bin_file) as [name|]; [|done].
  unfold bind at 1 in Hrun. unfold ret in Hrun. unfold bind in Hrun.
  destruct (decode_binary_to_npz _ _ _ _ _ w) as [[[]|e] w1]; [|done].
  unfold unlink, bind, log in Hrun. cbn [dirs files trace] in Hrun.
  repeat case_match; simplify_eq. cbn [files]. apply lookup_delete_eq.
Qed.

(** The files of one class directory, once the inner loop has returned. *)
Lemma inner_loop_removes (self : NMNIST) (base : path) (split_name name : string)
    (bin_files : list path) :
  (∀ q, q ∈ bin_files → parent (parent q) = base ++ [split_name]) →
  ∀ w w',
    for_each bin_files
      (decode_file npz_bytes write_env self ((base ++ [split_name +:+ "_npz"]) ++ [name])) w
    = (Ok tt, w') →
    decode_frame (base ++ [split_name]) (base ++ [split_name +:+ "_npz"]) w w' ∧
    ∀ p, p ∈ bin_files → files w' !! p = None.
Proof.
  induction bin_files as [|a l IH]; intros Hparents w w' Hrun.
  - injection Hrun as <-. split; [apply decode_frame_refl|]. by intros p Hp%elem_of_nil.
  - cbn [for_each] in Hrun. unfold bind in Hrun.
    destruct (decode_file _ _ _ _ a w) as [[[]|e] w1] eqn:Ha; [|done].
    assert (Hparents' : ∀ q, q ∈ l → parent (parent q) = base ++ [split_name])
      by (intros q Hq; apply Hparents; by apply list_elem_of_further).
    destruct (IH Hparents' w1 w' Hrun) as (Hrest & Hgone).
    assert (Hstep : decode_frame (base ++ [split_name])
                      (base ++ [split_name +:+ "_npz"]) w w1).
    { destruct (decode_file_frame _ _ _ _ _ _ _ _ Ha) as (Hfd & Hfdel & Hfnew).
      unfold decode_frame. rewrite Hfd. split_and!; auto.
      - intros p Hp. destruct (Hfdel p Hp) as [?| ->]; [by left|right].
        apply Hparents, list_elem_of_here.
      - intros p Hp. destruct (Hfnew p Hp) as [?|[s ->]]; [by left|right].
        exists name, s. by rewrite <- !(assoc_L (++)). }
    split; [by eapply decode_frame_trans|].
    intros p Hp. apply elem_of_cons in Hp as [->|Hp]; [|by apply Hgone].
    eapply decode_frame_absent; [exact Hrest| |by eapply decode_file_ok_gone].
    apply Hparents, list_elem_of_here.
Qed.

(** One turn of the outer loop of [decode], on a class directory. *)
Lemma class_step (self : NMNIST) (base : path) (split_name : string)
    (class_dir_name : path) (w w' : world) (r : result unit) :
  class_dir_name ≠ [] → parent class_dir_name = base ++ [split_name] →
  bind (last_part class_dir_name) (λ name,
    bind (mkdir ((base ++ [split_name +:+ "_npz"]) ++ [name])) (λ _,
      bind (iterdir class_dir_name) (λ bin_files,
        for_each bin_files
          (decode_file npz_bytes write_env self
             ((base ++ [split_name +:+ "_npz"]) ++ [name]))))) w = (r, w') →
  decode_frame (base ++ [split_name]) (base ++ [split_name +:+ "_npz"]) w w' ∧
  (r = Ok tt → ∀ p, parent p = class_dir_name → files w' !! p = None).
Proof.
  intros Hne Hparent Hbody.
  unfold last_part in Hbody. destruct (last class_dir_name) as [name|].
  2:{ unfold raise, bind in Hbody. injection Hbody as <- <-.
      split; [apply decode_frame_refl|done]. }
  unfold bind at 1 in Hbody. unfold ret in Hbody. unfold bind at 1 in Hbody.
  destruct (mkdir _ w) as [rm wm] eqn:Hmk.
  destruct (mkdir_inv _ _ _ _ Hmk) as (Hmf & Hmd & Hmnew).
  assert (Hstep1 : decode_frame (base ++ [split_name])
                     (base ++ [split_name +:+ "_npz"]) w wm).
  { unfold decode_frame. rewrite Hmf. split_and!; auto.
    intros d Hd'. destruct (Hmnew d Hd') as [?|?]; [by left|right; by exists name]. }
  destruct rm as [[]|em]; [|injection Hbody as <- <-; by split].
  unfold bind at 1 in Hbody.
  destruct (iterdir class_dir_name wm) as [[bin_files|e] wl] eqn:Hlist.
  2:{ injection Hbody as <- <-.
      destruct (iterdir_inv _ _ _ _ Hlist) as (Hd2 & Hf2 & _).
      split; [|done]. eapply decode_frame_trans; [exact Hstep1|].
      by apply decode_frame_same. }
  destruct (iterdir_inv _ _ _ _ Hlist) as (Hd2 & Hf2 & Hbins).
  specialize (Hbins bin_files eq_refl).
  assert (Hparents : ∀ q, q ∈ bin_files → parent (parent q) = base ++ [split_name]).
  { intros q Hq. destruct (Hbins q Hq) as [_ ->]. exact Hparent. }
  assert (Hstep2 : decode_frame (base ++ [split_name])
                     (base ++ [split_name +:+ "_npz"]) w wl).
  { eapply decode_frame_trans; [exact Hstep1|]. by apply decode_frame_same. }
  assert (Hframe : decode_frame (base ++ [split_name])
                     (base ++ [split_name +:+ "_npz"]) wl w').
  { eapply for_each_frame; [|exact Hbody].
    intros bin_file Hbin wc rc wd Hfile.
    destruct (decode_file_frame _ _ _ _ _ _ _ _ Hfile) as (Hfd & Hfdel & Hfnew).
    unfold decode_frame. rewrite Hfd. split_and!; auto.
    - intros p Hp. destruct (Hfdel p Hp) as [?| ->]; [by left|right]. by apply Hparents.
    - intros p Hp. destruct (Hfnew p Hp) as [?|[s ->]]; [by left|right].
      exists name, s. by rewrite <- !(assoc_L (++)). }
  split; [by eapply decode_frame_trans|].
  intros -> p Hp.
  assert (Hpne : p ≠ []) by (intros ->; apply Hne; by rewrite <- Hp).
  destruct (inner_loop_removes self base split_name name bin_files Hparents wl w' Hbody)
    as (_ & Hgone).
  destruct (files wl !! p) as [raw|] eqn:Hlook.
  - apply Hgone.
    (* p was listed *)
    unfold iterdir, bind, log in Hlist. cbn [dirs files trace] in Hlist.
    repeat case_decide; simplify_eq. cbn [files] in Hlook.
    apply elem_of_elements, elem_of_filter. split.
    + by split.
    + apply elem_of_union_r, elem_of_dom. by eexists.
  - eapply decode_frame_absent; [exact Hframe| |exact Hlook].
    by rewrite Hp.
Qed.

Lemma outer_loop_removes (self : NMNIST) (base : path) (split_name : string)
    (class_dirs : list path) :
  (∀ c, c ∈ class_dirs → c ≠ [] ∧ parent c = base ++ [split_name]) →
  ∀ w w',
    for_each class_dirs (λ class_dir_name,
      bind (last_part class_dir_name) (λ name,
        bind (mkdir ((base ++ [split_name +:+ "_npz"]) ++ [name])) (λ _,
          bind (iterdir class_dir_name) (λ bin_files,
            for_each bin_files
              (decode_file npz_bytes write_env self
                 ((base ++ [split_name +:+ "_npz"]) ++ [name])))))) w
    = (Ok tt, w') →
    decode_frame (base ++ [split_name]) (base ++ [split_name +:+ "_npz"]) w w' ∧
    ∀ c p, c ∈ class_dirs → parent p = c → files w' !! p = None.
Proof.
  induction class_dirs as [|c l IH]; intros Hclass w w' Hrun.
  - injection Hrun as <-. split; [apply decode_frame_refl|].
    by intros c p Hc%elem_of_nil.
  - cbn [for_each] in Hrun. unfold bind at 1 in Hrun.
    match type of Hrun with
    | context [let (_, _) := ?m w in _] => destruct (m w) as [[[]|e] w1] eqn:Hstep
    end; [|done].
    destruct (Hclass c (list_elem_of_here _ _)) as [Hne Hparent].
    destruct (class_step self base split_name c w w1 (Ok tt) Hne Hparent Hstep)
      as (Hframe1 & Hgone1).
    assert (Hclass' : ∀ c', c' ∈ l → c' ≠ [] ∧ parent c' = base ++ [split_name])
      by (intros c' Hc'; apply Hclass; by apply list_elem_of_further).
    destruct (IH Hclass' w1 w' Hrun) as (Hframe2 & Hgone2).
    split; [by eapply decode_frame_trans|].
    intros c' p Hc' Hp. apply elem_of_cons in Hc' as [->|Hc']; [|by eapply Hgone2].
    eapply decode_frame_absent; [exact Hframe2| |by apply Hgone1].
    by rewrite Hp.
Qed.

(** X17: when [decode] returns, no file is left in any class directory
    of the split: every file that was two levels below the directory of
    the split, in a directory that existed, has been converted and
    removed. *)
Theorem decode_leaves_no_source (self : NMNIST) (w w' : world) :
  decode npz_bytes write_env self w = (Ok tt, w') →
  ∀ p, parent (parent p) = _base_folder self ++ [capitalize (_split self)] →
       parent p ∈ dirs w →
       files w' !! p = None.
Proof.
  unfold decode. intros Hrun p Hpp Hdir.
  unfold bind at 1 in Hrun.
  destruct (iterdir _ w) as [[class_dirs|e] w1] eqn:Hlist; [|done].
  destruct (iterdir_inv _ _ _ _ Hlist) as (Hd & Hf & Hclass).
  specialize (Hclass class_dirs eq_refl).
  unfold bind at 1 in Hrun.
  match type of Hrun with
  | context [let (_, _) := ?m w1 in _] => destruct (m w1) as [[[]|e] w2] eqn:Hloop
  end; [|done].
  unfold print, log in Hrun. injection Hrun as <-. cbn [files].
  destruct (outer_loop_removes self (_base_folder self) (capitalize (_split self))
              class_dirs Hclass w1 w2 Hloop) as (_ & Hgone).
  apply (Hgone (parent p) p); [|done].
  unfold iterdir, bind, log in Hlist. cbn [dirs files trace] in Hlist.
  repeat case_decide; simplify_eq.
  apply elem_of_elements, elem_of_filter. split.
  - split; [|done]. intros Hnil. rewrite Hnil in Hpp.
    by destruct (_base_folder self).
  - by apply elem_of_union_l.
Qed.





End DecodeEdges.

(** * The further properties on the small data set *)



Lemma decode_file_converts_witness :
  decode_file example_npz_bytes example_write_env example_self
    ["data"; "NMNIST"; "Train"; "0"] ["data"; "NMNIST"; "Train"; "0"; "9.bin"]
    example_world
  = (Ok tt,
     World (dirs example_world)
       (delete ["data"; "NMNIST"; "Train"; "0"; "9.bin"]
          (<[ ["data"; "NMNIST"; "Train"; "0"; "9.npz"] := [x01; x06] ]>
             (files example_world)))
       [EOpen ["data"; "NMNIST"; "Train"; "0"; "9.bin"];
        ESavez ["data"; "NMNIST"; "Train"; "0"; "9.npz"];
        EUnlink ["data"; "NMNIST"; "Train"; "0"; "9.bin"]]).
Proof.
  refine (decode_file_converts example_npz_bytes example_write_env example_self
            ["data"; "NMNIST"; "Train"; "0"] ["data"; "NMNIST"; "Train"; "0"; "9.bin"]
            "9.bin" example_world [x01; x02; x03; x04; x05; x06]
            (EventData [1; 6] [2] [0] [197637]) _ _ _ _ _ _ _ _).
  - reflexivity.
  - by_run.
  - vm_compute; reflexivity.
  - reflexivity.
  - by_run.
  - right. by_run.
  - discriminate.
  - reflexivity.
Defined.

Lemma same_stem_overwrites_witness :
  ∃ w' : world,
    for_each [ ["c"; "7.bin"]; ["c"; "7.txt"] ]
      (decode_file example_npz_bytes example_write_env example_self ["c"])
      (World {[ ["c"] ]}
             {[ ["c"; "7.bin"] := [x0a; x14; x81; x02; x03];
                ["c"; "7.txt"] := [x01; x02; x03; x04; x05] ]} [])
    = (Ok tt, w') ∧
    files w' !! ["c"; "7.npz"] = Some [x01].
Proof.
  destruct (same_stem_overwrites example_npz_bytes example_write_env example_self
              ["c"] ["c"] "7" "bin" "txt"
              (World {[ ["c"] ]}
                     {[ ["c"; "7.bin"] := [x0a; x14; x81; x02; x03];
                        ["c"; "7.txt"] := [x01; x02; x03; x04; x05] ]} [])
              [x0a; x14; x81; x02; x03] [x01; x02; x03; x04; x05]
              (EventData [10] [20] [1] [66051]) (EventData [1] [2] [0] [197637]))
    as (w' & Hrun & _ & _ & Htarget & _).
  - discriminate.
  - by_run.
  - by_run.
  - vm_compute; reflexivity.
  - vm_compute; reflexivity.
  - reflexivity.
  - reflexivity.
  - by_run.
  - right. by_run.
  - discriminate.
  - discriminate.
  - reflexivity.
  - reflexivity.
  - exists w'. split; [exact Hrun|exact Htarget].
Defined.

Lemma download_skips_when_present_witness :
  download (λ _ _ _ _, raise OSError) example_self example_world
  = (Ok tt, World (dirs example_world) (files example_world)
              [EIsDir ["data"; "NMNIST"; "Train"]]).
Proof.
  refine (download_skips_when_present (λ _ _ _ _, raise OSError)
            example_self example_world _).
  by_run.
Defined.

Lemma download_fetches_witness :
  ∃ url md5 : string,
    urls !! "test" = Some url ∧ md5s !! "test" = Some md5 ∧
    download (λ _ _ _ _, raise OSError) (Build_NMNIST ["data"] "test" ["data"; "NMNIST"])
      (World ∅ ∅ [])
    = (Raise OSError,
       World ∅ ∅ [EIsDir ["data"; "NMNIST"; "Test"];
                  EDownload url ["data"; "NMNIST"] "test.zip" md5]).
Proof.
  refine (proj1 (download_fetches (λ _ _ _ _, raise OSError)
                   (Build_NMNIST ["data"] "test" ["data"; "NMNIST"]) (World ∅ ∅ []) _) _).
  - apply not_elem_of_empty.
  - by right.
Defined.

Lemma init_postcondition_witness :
  ("train" = "train" ∨ "train" = "test") ∧
  example_self = Build_NMNIST ["data"] "train" (["data"] ++ ["NMNIST"]) ∧
  ["data"] ++ ["NMNIST"; capitalize "train"] ∈ dirs example_world.
Proof.
  exact (init_postcondition (λ _ _ _ _, raise OSError) ["data"] "train" false
           example_world
           (World (dirs example_world) (files example_world)
                  [EIsDir ["data"; "NMNIST"; "Train"]])
           example_self eq_refl).
Defined.

Lemma init_download_outcomes_witness :
  __init__ (λ _ _ _ _, raise OSError) ["data"] "train" true (World ∅ ∅ [])
  = (Raise OSError,
     World ∅ ∅
       [EIsDir ["data"; "NMNIST"; "Train"];
        EDownload
          "https://data.mendeley.com/public-files/datasets/468j46mzdv/files/39c25547-014b-4137-a934-9d29fa53c7a0/file_downloaded"
          ["data"; "NMNIST"] "train.zip" "20959b8e626244a1b502305a9e6e2031"]).
Proof.
  refine (proj1 (init_download_outcomes (λ _ _ _ _, raise OSError) ["data"] "train"
                   "https://data.mendeley.com/public-files/datasets/468j46mzdv/files/39c25547-014b-4137-a934-9d29fa53c7a0/file_downloaded"
                   "20959b8e626244a1b502305a9e6e2031" (World ∅ ∅ []) _ _ _ _)
            OSError _ eq_refl).
  - by left.
  - vm_compute; reflexivity.
  - vm_compute; reflexivity.
  - apply not_elem_of_empty.
Defined.

Lemma init_present_witness :
  __init__ (λ _ _ _ _, raise OSError) ["data"] "train" true example_world
  = (Ok example_self,
     World (dirs example_world) (files example_world)
       [EIsDir ["data"; "NMNIST"; "Train"]; EIsDir ["data"; "NMNIST"; "Train"]]).
Proof.
  refine (init_present (λ _ _ _ _, raise OSError) ["data"] "train" true
            example_world _ _).
  - by left.
  - by_run.
Defined.

Lemma decode_changes_only_its_trees_witness :
  dirs example_world
  ⊆ dirs (decode example_npz_bytes example_write_env example_self example_world).2.
Proof.
  exact (proj1 (decode_changes_only_its_trees example_npz_bytes example_write_env
                  example_self example_world _ _ (surjective_pairing _))).
Defined.


Lemma decode_empty_source_witness :
  decode example_npz_bytes example_write_env example_self
    (World {[ ["data"; "NMNIST"; "Train"] ]} ∅ [])
  = (Ok tt,
     World {[ ["data"; "NMNIST"; "Train"] ]} ∅
       [EIterdir ["data"; "NMNIST"; "Train"]; EPrint "Decoded all the files. "]).
Proof.
  refine (decode_empty_source example_npz_bytes example_write_env example_self
            (World {[ ["data"; "NMNIST"; "Train"] ]} ∅ []) _ _ _).
  - by_run.
  - apply lookup_empty.
  - cbn [dirs files]. intros q [Hq|[raw Hq]].
    + apply elem_of_singleton in Hq as ->. discriminate.
    + by rewrite lookup_empty in Hq.
Defined.

Lemma decode_leaves_no_source_witness :
  files (decode example_npz_bytes example_write_env example_self example_world).2
    !! ["data"; "NMNIST"; "Train"; "0"; "7.bin"] = None.
Proof.
  refine (decode_leaves_no_source example_npz_bytes example_write_env example_self
            example_world _ _ ["data"; "NMNIST"; "Train"; "0"; "7.bin"] _ _).
  - rewrite (surjective_pairing (decode _ _ _ _)) at 1. f_equal.
  - reflexivity.
  - by_run.
Defined.

